(** * picolog: a shallow embedding of the levelled logger and its properties

    The package exists in two copies: [src/unnamed/part_000] (the later one,
    with its own [LogLevel] type, [String] and eight level helpers) and
    [src/picolog.go] (the earlier one, on [syslog.Priority], five helpers).
    The later copy is embedded at top level, the earlier one in [Module Prev].

    The parts of Go's standard library the package calls ([log/syslog],
    [strings], [os], [bufio], [log]) are embedded in the [Go*] modules as far
    as the package uses them. *)

From Stdlib Require Import ZArith Ascii String Lia.
From stdpp Require Import base tactics option list gmap strings.

Set Default Proof Using "Type".

(** What stays abstract of the standard library: the Unicode case mappings
    of strings that hold non-ASCII bytes, the argument values of a variadic
    call and [fmt.Sprintf] on a caller's format. *)
Class GoLib := {
  any : Type;
  unicode_ToLower : string → string;
  unicode_ToUpper : string → string;
  fmt_Sprintf : string → list any → string
}.

(** ** log/syslog: the severities, [LOG_EMERG Priority = iota] onwards *)
Module GoSyslog.
Definition Priority := Z.
Definition LOG_EMERG : Priority := 0%Z.
Definition LOG_ALERT : Priority := 1%Z.
Definition LOG_CRIT : Priority := 2%Z.
Definition LOG_ERR : Priority := 3%Z.
Definition LOG_WARNING : Priority := 4%Z.
Definition LOG_NOTICE : Priority := 5%Z.
Definition LOG_INFO : Priority := 6%Z.
Definition LOG_DEBUG : Priority := 7%Z.
End GoSyslog.

(** ** strings: case mapping. A Go string is a sequence of bytes. *)
Module GoStrings.
Definition RuneSelf : N := 128%N.

Fixpoint isASCII (s : string) : bool :=
  match s with
  | EmptyString => true
  | String c s' => (N_of_ascii c <? RuneSelf)%N && isASCII s'
  end.

Definition lower_byte (c : ascii) : ascii :=
  let n := N_of_ascii c in
  if (65 <=? n)%N && (n <=? 90)%N then ascii_of_N (n + 32) else c.

Definition upper_byte (c : ascii) : ascii :=
  let n := N_of_ascii c in
  if (97 <=? n)%N && (n <=? 122)%N then ascii_of_N (n - 32) else c.

Fixpoint map_bytes (f : ascii → ascii) (s : string) : string :=
  match s with
  | EmptyString => EmptyString
  | String c s' => String (f c) (map_bytes f s')
  end.

(** [strings.ToLower]: byte by byte on a string of ASCII bytes, else
    [unicode.ToLower] mapped over the runes. *)
Definition ToLower `{GoLib} (s : string) : string :=
  if isASCII s then map_bytes lower_byte s else unicode_ToLower s.

Definition ToUpper `{GoLib} (s : string) : string :=
  if isASCII s then map_bytes upper_byte s else unicode_ToUpper s.
End GoStrings.

(** Go's [error]: [nil] or a message. *)
Definition error := option string.

(** ** os: files. A [*os.File] is nil or a descriptor; the file system maps
    the descriptors that are open for writing to the bytes written so far.
    A write is taken whole or refused (nil, closed or unknown file). *)
Module GoOs.
Definition File := option nat.
Definition Stderr : File := Some 2.

Definition Write (f : File) (p : string) (fs : gmap nat string)
    : option (gmap nat string) :=
  match f with
  | None => None
  | Some fd =>
      match fs !! fd with
      | Some content => Some (<[fd := content +:+ p]> fs)
      | None => None
      end
  end.
End GoOs.

(** ** bufio: the buffered writer, with the default buffer size *)
Module GoBufio.
Definition defaultBufSize : nat := 4096.

(** [err] stands for [b.err != nil], [buf] for [b.buf[0:b.n]]. *)
Record Writer := mkWriter { err : bool; buf : string; wr : GoOs.File }.

Definition NewWriter (w : GoOs.File) : Writer :=
  {| err := false; buf := ""; wr := w |}.

Definition Buffered (b : Writer) : nat := String.length (buf b).
Definition Available (b : Writer) : nat := defaultBufSize - Buffered b.

Fixpoint take (n : nat) (p : string) : string :=
  match n, p with
  | S n', String c p' => String c (take n' p')
  | _, _ => ""
  end.

Fixpoint drop (n : nat) (p : string) : string :=
  match n, p with
  | S n', String _ p' => drop n' p'
  | _, _ => p
  end.

Definition Flush (b : Writer) (fs : gmap nat string) : Writer * gmap nat string :=
  if err b then (b, fs)
  else if (Buffered b =? 0)%nat then (b, fs)
  else match GoOs.Write (wr b) (buf b) fs with
       | Some fs' => ({| err := false; buf := ""; wr := wr b |}, fs')
       | None => ({| err := true; buf := buf b; wr := wr b |}, fs)
       end.

(** The condition of the loop of [Write]. *)
Definition Write_more (b : Writer) (p : string) : bool :=
  (Available b <? String.length p)%nat && negb (err b).

(** One turn of the loop of [Write], the identity once the condition fails:
    a large write on an empty buffer goes straight to the file, otherwise
    the buffer is filled up and flushed. *)
Definition Write_pass (st : Writer * string * gmap nat string)
    : Writer * string * gmap nat string :=
  let '(b, p, fs) := st in
  if Write_more b p then
    if (Buffered b =? 0)%nat then
      match GoOs.Write (wr b) p fs with
      | Some fs' => (b, "", fs')
      | None => ({| err := true; buf := buf b; wr := wr b |}, p, fs)
      end
    else
      let n := Available b in
      let '(b', fs') :=
        Flush {| err := err b; buf := buf b +:+ take n p; wr := wr b |} fs in
      (b', drop n p, fs')
  else st.

(** [Write]: the loop turns at most twice (lemma [Write_pass_settles]),
    then what is left is copied into the buffer. *)
Definition Write (b : Writer) (p : string) (fs : gmap nat string)
    : Writer * gmap nat string :=
  let '(b, p, fs) := Write_pass (Write_pass (b, p, fs)) in
  if err b then (b, fs)
  else ({| err := err b; buf := buf b +:+ p; wr := wr b |}, fs).
End GoBufio.

(** ** log: flags, header and line of [Logger.Output].
    [LUTC] and [Lmsgprefix], which picolog never sets, are left out. *)
Module GoLog.
Definition Ldate : Z := 1.
Definition Ltime : Z := 2.
Definition Lmicroseconds : Z := 4.
Definition Llongfile : Z := 8.
Definition Lshortfile : Z := 16.

(** A [*log.Logger]: picolog never changes one after [log.New], so the
    value stands for the pointer; [out] is the [*bufio.Writer] it was given. *)
Record Logger := New { out : option nat; prefix : string; flag : Z }.

(** What [t.Date()], [t.Clock()] and [t.Nanosecond()] give for a reading
    of the clock. *)
Record Time := mkTime {
  Year : Z; Month : Z; Day : Z;
  Hour : Z; Minute : Z; Second : Z; Nanosecond : Z
}.

(** The byte of the digit [d], Go's byte(48 + d). *)
Definition digit (d : Z) : ascii := ascii_of_N (Z.to_N ((48 + d) mod 256)).

(** The loop of [itoa] fills a [[20]byte] from its end: [fuel] counts the
    bytes left before the last one. *)
Fixpoint itoa_loop (fuel : nat) (i wid : Z) (acc : string) : string :=
  match fuel with
  | O => String (digit i) acc
  | S fuel' =>
      if (10 <=? i)%Z || (1 <? wid)%Z then
        let q := Z.quot i 10 in
        itoa_loop fuel' q (wid - 1) (String (digit (i - q * 10)) acc)
      else String (digit i) acc
  end.

Definition itoa (i wid : Z) : string := itoa_loop 19 i wid "".

Definition has (flag bits : Z) : bool := negb (Z.land flag bits =? 0)%Z.

(** The part of [s] after its last slash, when it has one. *)
Fixpoint after_last_slash (s : string) : option string :=
  match s with
  | EmptyString => None
  | String c s' =>
      match after_last_slash s' with
      | Some t => Some t
      | None => if Ascii.eqb c "/" then Some s' else None
      end
  end.

(** The loop of [formatHeader] for [Lshortfile]: from the end of [file]
    down to its second byte. *)
Definition short (file : string) : string :=
  match file with
  | EmptyString => file
  | String _ rest => default file (after_last_slash rest)
  end.

Definition formatHeader (l : Logger) (t : Time) (file : string) (line : Z)
    : string :=
  prefix l
  +:+ (if has (flag l) (Z.lor Ldate (Z.lor Ltime Lmicroseconds)) then
         (if has (flag l) Ldate then
            itoa (Year t) 4 +:+ "/" +:+ itoa (Month t) 2 +:+ "/"
            +:+ itoa (Day t) 2 +:+ " "
          else "")
         +:+ (if has (flag l) (Z.lor Ltime Lmicroseconds) then
                itoa (Hour t) 2 +:+ ":" +:+ itoa (Minute t) 2 +:+ ":"
                +:+ itoa (Second t) 2
                +:+ (if has (flag l) Lmicroseconds
                     then "." +:+ itoa (Z.quot (Nanosecond t) 1000) 6 else "")
                +:+ " "
              else "")
       else "")
  +:+ (if has (flag l) (Z.lor Lshortfile Llongfile) then
         (if has (flag l) Lshortfile then short file else file)
         +:+ ":" +:+ itoa line (-1) +:+ ": "
       else "").

Definition newline : string := String "010" "".

Fixpoint ends_with_newline (s : string) : bool :=
  match s with
  | EmptyString => false
  | String c EmptyString => Ascii.eqb c "010"
  | String _ s' => ends_with_newline s'
  end.

(** The bytes [Output] hands to [l.out.Write]: header, message, and a
    newline unless the message ends with one. [caller] is what
    [runtime.Caller(calldepth)] gives, read only under a file flag. *)
Definition line_of (l : Logger) (now : Time) (caller : option (string * Z))
    (s : string) : string :=
  let '(file, line) :=
    if has (flag l) (Z.lor Lshortfile Llongfile)
    then default ("???", 0%Z) caller else ("", 0%Z) in
  formatHeader l now file line +:+ s
  +:+ (if ends_with_newline s then "" else newline).
End GoLog.

(** ** The later copy, src/unnamed/part_000 *)

Definition LogLevel := GoSyslog.Priority.

Definition LogDebug : LogLevel := GoSyslog.LOG_DEBUG.
Definition LogInfo : LogLevel := GoSyslog.LOG_INFO.
Definition LogNotice : LogLevel := GoSyslog.LOG_NOTICE.
Definition LogWarning : LogLevel := GoSyslog.LOG_WARNING.
Definition LogErr : LogLevel := GoSyslog.LOG_ERR.
Definition LogCrit : LogLevel := GoSyslog.LOG_CRIT.
Definition LogAlert : LogLevel := GoSyslog.LOG_ALERT.
Definition LogEmerg : LogLevel := GoSyslog.LOG_EMERG.

Definition ParseLogLevel `{GoLib} (level : string) : LogLevel * error :=
  let level := GoStrings.ToLower level in
  if String.eqb level "emerg" then (GoSyslog.LOG_EMERG, None)
  else if String.eqb level "alert" then (GoSyslog.LOG_ALERT, None)
  else if String.eqb level "crit" then (GoSyslog.LOG_CRIT, None)
  else if String.eqb level "err" then (GoSyslog.LOG_ERR, None)
  else if String.eqb level "warning" then (GoSyslog.LOG_WARNING, None)
  else if String.eqb level "notice" then (GoSyslog.LOG_NOTICE, None)
  else if String.eqb level "info" then (GoSyslog.LOG_INFO, None)
  else if String.eqb level "debug" then (GoSyslog.LOG_DEBUG, None)
  else (0%Z, Some ("Invalid log level: " +:+ level)).

(** [func (l LogLevel) String() string] *)
Definition LogLevel_String (l : LogLevel) : string :=
  if (l =? GoSyslog.LOG_EMERG)%Z then "emerg"
  else if (l =? GoSyslog.LOG_ALERT)%Z then "alert"
  else if (l =? GoSyslog.LOG_CRIT)%Z then "crit"
  else if (l =? GoSyslog.LOG_ERR)%Z then "err"
  else if (l =? GoSyslog.LOG_WARNING)%Z then "warning"
  else if (l =? GoSyslog.LOG_NOTICE)%Z then "notice"
  else if (l =? GoSyslog.LOG_INFO)%Z then "info"
  else if (l =? GoSyslog.LOG_DEBUG)%Z then "debug"
  else "invalid log level".

(** ** The logger and the store it lives in *)

(** A [*Logger] or [*bufio.Writer]: nil or an address in the store. *)
Definition ptr := option nat.

Record Logger := mkLogger {
  logLevel : LogLevel;
  logger : option GoLog.Logger;
  writer : ptr;
  destStream : GoOs.File;
  prefix : string;
  subloggers : list ptr;
  initialized : bool
}.

(** The zero value, what [new(Logger)] allocates. *)
Definition zero_Logger : Logger :=
  {| logLevel := 0%Z; logger := None; writer := None; destStream := None;
     prefix := ""; subloggers := []; initialized := false |}.

Record World := mkWorld {
  loggers : list Logger;
  writers : list GoBufio.Writer;
  files : gmap nat string
}.

(** What a call reads from its surroundings: the clock ([time.Now]) and the
    call stack ([runtime.Caller] at a depth counted from [log.Output]). *)
Record Env := mkEnv {
  time_Now : GoLog.Time;
  runtime_Caller : Z → option (string * Z)
}.

(** How a call ends: it returns, panics (a nil pointer is followed) or
    leaves the process ([os.Exit]). *)
Inductive outcome (A : Type) : Type :=
  | Returns (a : A)
  | Panics
  | Exits (code : Z).
Arguments Returns {A} a.
Arguments Panics {A}.
Arguments Exits {A} code.

Definition Go (A : Type) : Type := World → World * outcome A.

Global Instance Go_ret : MRet Go := λ A a w, (w, Returns a).
Global Instance Go_bind : MBind Go := λ A B k m w,
  match m w with
  | (w', Returns a) => k a w'
  | (w', Panics) => (w', Panics)
  | (w', Exits c) => (w', Exits c)
  end.

Definition panic {A} : Go A := λ w, (w, Panics).
Definition os_Exit {A} (code : Z) : Go A := λ w, (w, Exits code).

(** Following a [*Logger]. *)
Definition load (l : ptr) : Go Logger := λ w,
  match l ≫= (loggers w !!.) with
  | Some L => (w, Returns L)
  | None => (w, Panics)
  end.

Definition store (l : ptr) (L : Logger) : Go unit := λ w,
  match l with
  | Some a =>
      if decide (a < length (loggers w))
      then (mkWorld (<[a := L]> (loggers w)) (writers w) (files w), Returns ())
      else (w, Panics)
  | None => (w, Panics)
  end.

Definition alloc_Logger (L : Logger) : Go ptr := λ w,
  (mkWorld (loggers w ++ [L]) (writers w) (files w),
   Returns (Some (length (loggers w)))).

(** [bufio.NewWriter] on an [*os.File]. *)
Definition bufio_NewWriter (dest : GoOs.File) : Go ptr := λ w,
  (mkWorld (loggers w) (writers w ++ [GoBufio.NewWriter dest]) (files w),
   Returns (Some (length (writers w)))).

(** A method of [*bufio.Writer] run on the writer at [b]; the error it
    returns is dropped, as every caller in the package drops it. *)
Definition on_writer (b : ptr)
    (f : GoBufio.Writer → gmap nat string → GoBufio.Writer * gmap nat string)
    : Go unit := λ w,
  match b with
  | Some a =>
      match writers w !! a with
      | Some W =>
          let '(W', fs') := f W (files w) in
          (mkWorld (loggers w) (<[a := W']> (writers w)) fs', Returns ())
      | None => (w, Panics)
      end
  | None => (w, Panics)
  end.

Definition bufio_Write (b : ptr) (p : string) : Go unit :=
  on_writer b (λ W fs, GoBufio.Write W p fs).

Definition bufio_Flush (b : ptr) : Go unit := on_writer b GoBufio.Flush.

(** [l.Output(calldepth, s)] on a [*log.Logger], nil or not. *)
Definition log_Output (l : option GoLog.Logger) (calldepth : Z) (s : string)
    (env : Env) : Go unit :=
  match l with
  | Some lg =>
      bufio_Write (GoLog.out lg)
        (GoLog.line_of lg (time_Now env) (runtime_Caller env calldepth) s)
  | None => panic
  end.

(** [NewLogger]: the fields are those the source assigns one by one to the
    fresh [Logger]; the [fmt.Sprintf] of a string into its one verb is
    written as the concatenation it is. *)
Definition NewLogger (logLevel : LogLevel) (subpackage : string)
    (dest : GoOs.File) : Go ptr :=
  let flags := Z.lor GoLog.Ldate GoLog.Ltime in
  let flags :=
    if (logLevel =? GoSyslog.LOG_DEBUG)%Z
    then Z.lor flags GoLog.Lshortfile else flags in
  let renderedPrefix := "[" +:+ subpackage +:+ "] " in
  w ← bufio_NewWriter dest;
  alloc_Logger
    {| logLevel := logLevel;
       logger := Some (GoLog.New w renderedPrefix flags);
       writer := w;
       destStream := dest;
       prefix := subpackage;
       subloggers := [];
       initialized := true |}.

Definition NewDefaultLogger : Go ptr :=
  NewLogger LogDebug "default" GoOs.Stderr.

(** The assignment is to the method's own copy of the receiver. *)
Definition initializeDefaultLogger (l : ptr) : Go unit :=
  defaultLogger ← NewDefaultLogger;
  let l := defaultLogger in
  mret ().

Definition ensureInitialized (l : ptr) : Go unit :=
  L ← load l;
  if negb (initialized L) then initializeDefaultLogger l else mret ().

Definition NewSubLogger (l : ptr) (prefix' : string) : Go ptr :=
  L ← load l;
  let subPrefix := prefix L +:+ "][" +:+ prefix' in
  sub ← NewLogger (logLevel L) subPrefix (destStream L);
  L ← load l;
  store l {| logLevel := logLevel L; logger := logger L; writer := writer L;
             destStream := destStream L; prefix := prefix L;
             subloggers := subloggers L ++ [sub];
             initialized := initialized L |};;
  mret sub.

Section Output.
Context `{GoLib}.

Definition Printf (l : ptr) (format : string) (level : LogLevel)
    (v : list any) (env : Env) : Go unit :=
  ensureInitialized l;;
  L ← load l;
  if (level <=? logLevel L)%Z then
    let msg := fmt_Sprintf format v in
    log_Output (logger L) 3 msg env;;
    bufio_Flush (writer L)
  else mret ().

Definition Debugf (l : ptr) (format : string) (v : list any) (env : Env)
    : Go unit := Printf l format LogDebug v env.

Definition Errorf (l : ptr) (format : string) (v : list any) (env : Env)
    : Go unit := Printf l format LogErr v env.

Definition Warningf (l : ptr) (format : string) (v : list any) (env : Env)
    : Go unit := Printf l format LogWarning v env.

Definition Fatalf (l : ptr) (format : string) (v : list any) (env : Env)
    : Go unit := Printf l format LogErr v env;; os_Exit 1.

Definition Infof (l : ptr) (format : string) (v : list any) (env : Env)
    : Go unit := Printf l format LogInfo v env.

Definition Emergf (l : ptr) (format : string) (v : list any) (env : Env)
    : Go unit := Printf l format LogEmerg v env.

Definition Alertf (l : ptr) (format : string) (v : list any) (env : Env)
    : Go unit := Printf l format LogAlert v env.

Definition Noticef (l : ptr) (format : string) (v : list any) (env : Env)
    : Go unit := Printf l format LogNotice v env.
End Output.

(** A level helper, and the helpers of the package by name, each with the
    severity it hands to [Printf], in the order of the source. *)
Definition helper `{GoLib} : Type := ptr → string → list any → Env → Go unit.

Definition helpers `{GoLib} : list (string * (LogLevel * helper)) :=
  [("Debugf", (LogDebug, Debugf)); ("Errorf", (LogErr, Errorf));
   ("Warningf", (LogWarning, Warningf)); ("Fatalf", (LogErr, Fatalf));
   ("Infof", (LogInfo, Infof)); ("Emergf", (LogEmerg, Emergf));
   ("Alertf", (LogAlert, Alertf)); ("Noticef", (LogNotice, Noticef))].

(** The severity the helper of that name passes on, if the copy has one. *)
Definition severity_of `{GoLib} (tbl : list (string * (LogLevel * helper)))
    (name : string) : option LogLevel :=
  fst <$> (list_to_map tbl : gmap string (LogLevel * helper)) !! name.

(** ** The earlier copy, src/picolog.go. Its [Logger] struct has the fields
    of the later one, with [syslog.Priority] where that has [LogLevel], so it
    lives in the same store. *)
Module Prev.
Import GoSyslog.

Section WithLib.
Context `{GoLib}.

Definition ParseLogLevel (level : string) : Priority * error :=
  let level := GoStrings.ToLower level in
  if String.eqb level "emerg" then (LOG_EMERG, None)
  else if String.eqb level "alert" then (LOG_ALERT, None)
  else if String.eqb level "crit" then (LOG_CRIT, None)
  else if String.eqb level "err" then (LOG_ERR, None)
  else if String.eqb level "warning" then (LOG_WARNING, None)
  else if String.eqb level "notice" then (LOG_NOTICE, None)
  else if String.eqb level "info" then (LOG_INFO, None)
  else if String.eqb level "debug" then (LOG_DEBUG, None)
  else (0%Z, Some ("Invalid log level: " +:+ level)).

Definition NewLogger (logLevel : Priority) (subpackage : string)
    (dest : GoOs.File) : Go ptr :=
  let flags := Z.lor GoLog.Ldate GoLog.Ltime in
  let flags :=
    if (logLevel =? LOG_DEBUG)%Z
    then Z.lor flags GoLog.Lshortfile else flags in
  let renderedPrefix := "[" +:+ subpackage +:+ "] " in
  w ← bufio_NewWriter dest;
  alloc_Logger
    {| logLevel := logLevel;
       logger := Some (GoLog.New w renderedPrefix flags);
       writer := w;
       destStream := dest;
       prefix := subpackage;
       subloggers := [];
       initialized := true |}.

Definition NewDefaultLogger : Go ptr :=
  NewLogger LOG_DEBUG "default" GoOs.Stderr.

Definition initializeDefaultLogger (l : ptr) : Go unit :=
  defaultLogger ← NewDefaultLogger;
  let l := defaultLogger in
  mret ().

Definition ensureInitialized (l : ptr) : Go unit :=
  L ← load l;
  if negb (initialized L) then initializeDefaultLogger l else mret ().

Definition NewSubLogger (l : ptr) (prefix' : string) : Go ptr :=
  L ← load l;
  let subPrefix := prefix L +:+ "][" +:+ prefix' in
  sub ← NewLogger (logLevel L) subPrefix (destStream L);
  L ← load l;
  store l {| logLevel := logLevel L; logger := logger L;
             writer := writer L; destStream := destStream L;
             prefix := prefix L; subloggers := subloggers L ++ [sub];
             initialized := initialized L |};;
  mret sub.

Definition Printf (l : ptr) (format : string) (level : Priority)
    (v : list any) (env : Env) : Go unit :=
  ensureInitialized l;;
  L ← load l;
  if (level <=? logLevel L)%Z then
    let msg := fmt_Sprintf format v in
    log_Output (logger L) 3 msg env;;
    bufio_Flush (writer L)
  else mret ().

Definition Debugf (l : ptr) (format : string) (v : list any) (env : Env)
    : Go unit := Printf l format LOG_DEBUG v env.

Definition Errorf (l : ptr) (format : string) (v : list any) (env : Env)
    : Go unit := Printf l format LOG_ERR v env.

Definition Warningf (l : ptr) (format : string) (v : list any) (env : Env)
    : Go unit := Printf l format LOG_WARNING v env.

Definition Fatalf (l : ptr) (format : string) (v : list any) (env : Env)
    : Go unit := Printf l format LOG_CRIT v env;; os_Exit 1.

Definition Infof (l : ptr) (format : string) (v : list any) (env : Env)
    : Go unit := Printf l format LOG_INFO v env.

Definition helpers : list (string * (Priority * helper)) :=
  [("Debugf", (LOG_DEBUG, Debugf)); ("Errorf", (LOG_ERR, Errorf));
   ("Warningf", (LOG_WARNING, Warningf)); ("Fatalf", (LOG_CRIT, Fatalf));
   ("Infof", (LOG_INFO, Infof))].
End WithLib.
End Prev.

(** ** What the properties speak of *)

(** The eight levels, most severe first. *)
Definition all_levels : list LogLevel :=
  [LogEmerg; LogAlert; LogCrit; LogErr; LogWarning; LogNotice; LogInfo; LogDebug].

(** Two strings are the same up to case when [strings.ToLower], the
    normalisation [ParseLogLevel] itself applies, sends them to one string. *)
Definition same_ignoring_case `{GoLib} (a b : string) : Prop :=
  GoStrings.ToLower a = GoStrings.ToLower b.

(** Byte by byte, the same up to the case of the ASCII letters. *)
Fixpoint same_bytes_ignoring_case (a b : string) : bool :=
  match a, b with
  | EmptyString, EmptyString => true
  | String x a', String y b' =>
      Ascii.eqb (GoStrings.lower_byte x) (GoStrings.lower_byte y)
      && same_bytes_ignoring_case a' b'
  | _, _ => false
  end.

(** The flags [NewLogger] gives the [log.Logger] of a logger of that level. *)
Definition flags_of (logLevel : LogLevel) : Z :=
  if (logLevel =? GoSyslog.LOG_DEBUG)%Z
  then Z.lor (Z.lor GoLog.Ldate GoLog.Ltime) GoLog.Lshortfile
  else Z.lor GoLog.Ldate GoLog.Ltime.

(** The prefix a logger's lines start with: that of its [log.Logger]. *)
Definition rendered (L : Logger) : option string := GoLog.prefix <$> logger L.

(** The writer [b] is sound and, with the file [fd] it writes to, holds the
    bytes [all]: those in the file followed by those in the buffer. *)
Definition carries (b : GoBufio.Writer) (fs : gmap nat string) (fd : nat)
    (all : string) : Prop :=
  GoBufio.err b = false ∧ GoBufio.wr b = Some fd ∧
  ∃ c, fs !! fd = Some c ∧ c +:+ GoBufio.buf b = all.

(** The logger at [l] is [L], set up as [NewLogger] sets one up and at rest:
    its writer [W] is sound with nothing buffered, and its destination is the
    open file [fd], which holds [content]. *)
Record ready (w : World) (l : ptr) (L : Logger) (W : GoBufio.Writer)
    (fd : nat) (content : string) : Prop := mkReady {
  ready_load : l ≫= (loggers w !!.) = Some L;
  ready_initialized : initialized L = true;
  ready_logger :
    logger L = Some (GoLog.New (writer L) ("[" +:+ prefix L +:+ "] ")
                               (flags_of (logLevel L)));
  ready_writer : writer L ≫= (writers w !!.) = Some W;
  ready_sound : W = GoBufio.mkWriter false "" (destStream L);
  ready_dest : destStream L = Some fd;
  ready_open : files w !! fd = Some content
}.

(** The line a call of [Printf] hands to the logger's [log.Logger]. *)
Definition line `{GoLib} (L : Logger) (format : string) (v : list any)
    (env : Env) : string :=
  GoLog.line_of
    (GoLog.New (writer L) ("[" +:+ prefix L +:+ "] ") (flags_of (logLevel L)))
    (time_Now env) (runtime_Caller env 3) (fmt_Sprintf format v).

(** Subloggers nested one in the other, [l.NewSubLogger(c1).NewSubLogger(c2)]
    and so on. *)
Fixpoint NewSubLoggers (l : ptr) (cs : list string) : Go ptr :=
  match cs with
  | [] => mret l
  | c :: cs' => sub ← NewSubLogger l c; NewSubLoggers sub cs'
  end.

(** [][c1][c2...] appended to a stored prefix, and [[c1][c2]...]. *)
Definition chained (cs : list string) : string :=
  foldr (λ c r, "][" +:+ c +:+ r) "" cs.

Definition bracketed (cs : list string) : string :=
  foldr (λ c r, "[" +:+ c +:+ "]" +:+ r) "" cs.

(** An invariant of a call: it holds after, whatever the outcome, if it
    held before. *)
Definition keeps {A} (I : World → Prop) (m : Go A) : Prop :=
  ∀ w, I w → I (m w).1.

(** The sublogger [NewSubLogger] makes for the parent [L] in a store with
    [m] writers. *)
Definition sub_of (L : Logger) (c : string) (m : nat) : Logger :=
  mkLogger (logLevel L)
    (Some (GoLog.New (Some m) ("[" +:+ (prefix L +:+ "][" +:+ c) +:+ "] ")
                     (flags_of (logLevel L))))
    (Some m) (destStream L) (prefix L +:+ "][" +:+ c) [] true.

(** Decimal digits of a number below a hundred, below ten thousand. *)
Definition two_digits (n : Z) : string :=
  String (GoLog.digit (n / 10)) (String (GoLog.digit (n mod 10)) "").

Definition four_digits (n : Z) : string :=
  String (GoLog.digit (n / 1000))
    (String (GoLog.digit (n / 100 mod 10))
       (String (GoLog.digit (n / 10 mod 10))
          (String (GoLog.digit (n mod 10)) ""))).

(** A reading of the clock within the calendar's ranges. *)
Record clock_ok (t : GoLog.Time) : Prop := mkClockOk {
  year_ok : (0 ≤ GoLog.Year t < 10000)%Z;
  month_ok : (1 ≤ GoLog.Month t ≤ 12)%Z;
  day_ok : (1 ≤ GoLog.Day t ≤ 31)%Z;
  hour_ok : (0 ≤ GoLog.Hour t < 24)%Z;
  minute_ok : (0 ≤ GoLog.Minute t < 60)%Z;
  second_ok : (0 ≤ GoLog.Second t < 60)%Z
}.

(** The date year first and month first, and the time of day. *)
Definition date_ymd (t : GoLog.Time) : string :=
  four_digits (GoLog.Year t) +:+ "/" +:+ two_digits (GoLog.Month t) +:+ "/"
  +:+ two_digits (GoLog.Day t).

Definition date_mdy (t : GoLog.Time) : string :=
  two_digits (GoLog.Month t) +:+ "/" +:+ two_digits (GoLog.Day t) +:+ "/"
  +:+ four_digits (GoLog.Year t).

Definition clock_hms (t : GoLog.Time) : string :=
  two_digits (GoLog.Hour t) +:+ ":" +:+ two_digits (GoLog.Minute t) +:+ ":"
  +:+ two_digits (GoLog.Second t).

(** The place of the call, [file:line: ], as [Lshortfile] prints it. *)
Definition call_site (env : Env) : string :=
  let '(file, n) := default ("???", 0%Z) (runtime_Caller env 3) in
  GoLog.short file +:+ ":" +:+ GoLog.itoa n (-1) +:+ ": ".

(** The newline [log.Output] adds to a message that does not end with one. *)
Definition terminator (msg : string) : string :=
  if GoLog.ends_with_newline msg then "" else GoLog.newline.

(** The line format in the words of the specification:
    [[prefix] MM/DD/YYYY HH:MM:SS message]. *)
Definition spec_line (prefix : string) (t : GoLog.Time) (msg : string) : string :=
  "[" +:+ prefix +:+ "] " +:+ date_mdy t +:+ " " +:+ clock_hms t +:+ " " +:+ msg.

(** The line format of the code: the date year first, and the place of the
    call before the message for a logger whose threshold is [LogDebug]. *)
Definition code_line (L : Logger) (env : Env) (msg : string) : string :=
  "[" +:+ prefix L +:+ "] " +:+ date_ymd (time_Now env) +:+ " "
  +:+ clock_hms (time_Now env) +:+ " "
  +:+ (if (logLevel L =? LogDebug)%Z then call_site env else "")
  +:+ msg +:+ terminator msg.

(** The logger at [l] is [L]. *)
Definition holds_at (l : ptr) (L : Logger) (w : World) : Prop :=
  l ≫= (loggers w !!.) = Some L.

(** The logger [NewDefaultLogger] makes in a store with [m] writers. *)
Definition default_Logger (m : nat) : Logger :=
  mkLogger LogDebug
    (Some (GoLog.New (Some m) "[default] " (flags_of LogDebug)))
    (Some m) GoOs.Stderr "default" [] true.

(** Both copies have a helper of that name, and it hands the same severity
    to [Printf] in both. *)
Definition agree_on `{GoLib} (name : string) : Prop :=
  ∃ S, severity_of Prev.helpers name = Some S ∧
       severity_of helpers name = Some S.

(** The helpers the two copies are said to agree on. *)
Definition claimed_helpers : list string :=
  ["Debugf"; "Infof"; "Noticef"; "Warningf"; "Errorf"; "Fatalf"].

(** The store and the moment of the package's test: the logger [test] at
    INFO, first of the store, on the empty file 1; a call from line 20 of the
    test file. *)
Definition test_world : World :=
  (NewLogger LogInfo "test" (Some 1) (mkWorld [] [] {[1 := ""; 2 := ""]})).1.

Definition test_logger : Logger :=
  mkLogger LogInfo (Some (GoLog.New (Some 0) "[test] " 3)) (Some 0) (Some 1)
    "test" [] true.

Definition test_env : Env :=
  mkEnv (GoLog.mkTime 2014 3 7 9 5 2 0)
    (λ _, Some ("/src/picolog/picolog_test.go", 20%Z)).

(** The same with the logger at DEBUG, and a store whose one logger is a
    zero value, as [new(Logger)] leaves it. *)
Definition debug_world : World :=
  (NewLogger LogDebug "test" (Some 1) (mkWorld [] [] {[1 := ""; 2 := ""]})).1.

Definition zero_world : World :=
  mkWorld [zero_Logger] [] {[1 := ""; 2 := ""]}.

(** The [log.Logger] and the writer of [L] are those [NewLogger] gives a
    logger of its prefix, threshold and destination; [W] is the writer. *)
Definition wired (w : World) (L : Logger) (W : GoBufio.Writer) : Prop :=
  logger L = Some (GoLog.New (writer L) ("[" +:+ prefix L +:+ "] ")
                             (flags_of (logLevel L))) ∧
  writer L ≫= (writers w !!.) = Some W ∧
  GoBufio.wr W = destStream L.

(** A store as the package leaves it: each initialized logger is wired, its
    writer at rest when its destination is open; a logger that was never
    initialized has no [log.Logger]. *)
Definition sound (w : World) : Prop :=
  ∀ a L, loggers w !! a = Some L →
    if initialized L then
      ∃ W, wired w L W ∧
           (is_Some (destStream L ≫= (files w !!.)) →
            W = GoBufio.mkWriter false "" (destStream L))
    else logger L = None.

(** A call of the package from outside: [new(Logger)], the constructors,
    [Printf], a level helper by its name. *)
Inductive call `{GoLib} : Type :=
  | CallNew
  | CallNewLogger (logLevel : LogLevel) (subpackage : string) (dest : GoOs.File)
  | CallNewDefaultLogger
  | CallNewSubLogger (l : ptr) (prefix' : string)
  | CallPrintf (l : ptr) (format : string) (level : LogLevel) (v : list any)
      (env : Env)
  | CallHelper (name : string) (l : ptr) (format : string) (v : list any)
      (env : Env).

Definition run_call `{GoLib} (c : call) : Go unit :=
  match c with
  | CallNew => alloc_Logger zero_Logger;; mret ()
  | CallNewLogger T p d => NewLogger T p d;; mret ()
  | CallNewDefaultLogger => NewDefaultLogger;; mret ()
  | CallNewSubLogger l c => NewSubLogger l c;; mret ()
  | CallPrintf l format level v env => Printf l format level v env
  | CallHelper name l format v env =>
      match (list_to_map helpers : gmap string (LogLevel * helper)) !! name with
      | Some (_, h) => h l format v env
      | None => mret ()
      end
  end.

(** Calls one after the other, as long as they return. *)
Fixpoint run_calls `{GoLib} (cs : list call) : Go unit :=
  match cs with
  | [] => mret ()
  | c :: cs' => run_call c;; run_calls cs'
  end.

(** [L'] is [L] but for subloggers added at the end of its list. *)
Definition same_settings (L L' : Logger) : Prop :=
  logLevel L' = logLevel L ∧ logger L' = logger L ∧ writer L' = writer L ∧
  destStream L' = destStream L ∧ prefix L' = prefix L ∧
  initialized L' = initialized L ∧
  ∃ more, subloggers L' = subloggers L ++ more.

(** [L] with one more sublogger. *)
Definition with_sublogger (L : Logger) (sub : ptr) : Logger :=
  mkLogger (logLevel L) (logger L) (writer L) (destStream L) (prefix L)
    (subloggers L ++ [sub]) (initialized L).

(** The store of the test had the logger been given the nil file. *)
Definition nil_world : World :=
  (NewLogger LogInfo "test" None (mkWorld [] [] {[1 := ""; 2 := ""]})).1.

Definition nil_logger : Logger :=
  mkLogger LogInfo (Some (GoLog.New (Some 0) "[test] " 3)) (Some 0) None
    "test" [] true.

(** A standard library for examples: no argument values, [fmt.Sprintf] of a
    format without verbs, identity on strings outside ASCII. *)
Definition plainLib : GoLib :=
  {| any := Empty_set; unicode_ToLower := id; unicode_ToUpper := id;
     fmt_Sprintf := λ format _, format |}.

(** * Lemmas *)

(** ** Strings *)

Lemma string_app_nil_l (b : string) : "" +:+ b = b.
Proof. reflexivity. Qed.

Lemma string_app_cons (x : ascii) (a b : string) :
  String x a +:+ b = String x (a +:+ b).
Proof. reflexivity. Qed.

Lemma string_app_assoc (a b c : string) : (a +:+ b) +:+ c = a +:+ (b +:+ c).
Proof.
  induction a as [|x a IH]; [done|]. rewrite !string_app_cons. by rewrite IH.
Qed.

Lemma string_app_nil_r (a : string) : a +:+ "" = a.
Proof.
  induction a as [|x a IH]; [done|]. rewrite string_app_cons. by rewrite IH.
Qed.

Lemma string_length_app (a b : string) :
  String.length (a +:+ b) = String.length a + String.length b.
Proof.
  induction a as [|x a IH]; [done|]. rewrite string_app_cons. simpl.
  by rewrite IH.
Qed.

Lemma string_length_0 (a : string) : String.length a = 0 → a = "".
Proof. by destruct a. Qed.

Lemma string_app_neq_l (a b : string) : b ≠ "" → a +:+ b ≠ a.
Proof.
  intros Hb Heq. apply Hb, string_length_0.
  apply (f_equal String.length) in Heq. rewrite string_length_app in Heq. lia.
Qed.

Lemma take_drop (n : nat) (p : string) : GoBufio.take n p +:+ GoBufio.drop n p = p.
Proof.
  revert p. induction n as [|n IH]; intros [|c p]; simpl; try done.
  rewrite string_app_cons. f_equal. apply IH.
Qed.

(** ** Levels *)

Section LevelFacts.
Context `{GoLib}.

Lemma ToLower_level_name (L : LogLevel) :
  L ∈ all_levels → GoStrings.ToLower (LogLevel_String L) = LogLevel_String L.
Proof.
  unfold all_levels. rewrite !elem_of_cons, elem_of_nil.
  intros Hin. repeat (destruct Hin as [->|Hin]; [reflexivity|]). done.
Qed.

Lemma ParseLogLevel_Prev (s : string) : Prev.ParseLogLevel s = ParseLogLevel s.
Proof. reflexivity. Qed.

(** On strings of ASCII bytes, [strings.ToLower] identifies exactly the
    strings that are the same byte by byte up to case. *)
Lemma same_ignoring_case_ascii (a b : string) :
  GoStrings.isASCII a = true → GoStrings.isASCII b = true →
  same_ignoring_case a b ↔ same_bytes_ignoring_case a b = true.
Proof.
  intros Ha Hb. unfold same_ignoring_case, GoStrings.ToLower.
  rewrite Ha, Hb. clear Ha Hb. revert b.
  induction a as [|x a IH]; intros [|y b]; simpl; try done.
  rewrite andb_true_iff, Ascii.eqb_eq, <- IH. split.
  - by intros [= -> ->].
  - by intros [-> ->].
Qed.
End LevelFacts.

(** ** The buffered writer *)

Lemma os_Write_open (fd : nat) (p content : string) (fs : gmap nat string) :
  fs !! fd = Some content →
  GoOs.Write (Some fd) p fs = Some (<[fd := content +:+ p]> fs).
Proof. intros Hfd. unfold GoOs.Write. by rewrite Hfd. Qed.

Lemma Flush_carries b fs fd all :
  carries b fs fd all →
  GoBufio.Flush b fs = (GoBufio.mkWriter false "" (Some fd), <[fd := all]> fs).
Proof.
  intros (Herr & Hwr & c & Hc & <-). destruct b as [e bf w]; simpl in *; subst.
  unfold GoBufio.Flush, GoBufio.Buffered. cbn [GoBufio.err GoBufio.buf GoBufio.wr].
  destruct (String.length bf =? 0)%nat eqn:Hlen.
  - apply Nat.eqb_eq, string_length_0 in Hlen as ->.
    rewrite string_app_nil_r. by rewrite insert_id.
  - by rewrite (os_Write_open _ _ c).
Qed.

Lemma carries_unfold b fs fd all :
  carries b fs fd all →
  ∃ c, b = GoBufio.mkWriter false (GoBufio.buf b) (Some fd) ∧
       fs !! fd = Some c ∧ all = c +:+ GoBufio.buf b.
Proof.
  intros (Herr & Hwr & c & Hc & <-). exists c. destruct b; simpl in *.
  by subst.
Qed.

Lemma Write_pass_carries b p fs fd all :
  carries b fs fd all →
  ∃ b' p' fs' all',
    GoBufio.Write_pass (b, p, fs) = (b', p', fs') ∧
    carries b' fs' fd all' ∧ all' +:+ p' = all +:+ p ∧
    ∃ c', fs' = <[fd := c']> fs.
Proof.
  intros Hb. destruct (carries_unfold _ _ _ _ Hb) as (c & Eb & Hc & ->).
  destruct b as [e bf w]. simpl in Eb. injection Eb as -> ->.
  unfold GoBufio.Write_pass. destruct (GoBufio.Write_more _ p).
  - unfold GoBufio.Buffered. cbn [GoBufio.err GoBufio.buf GoBufio.wr].
    destruct (String.length bf =? 0)%nat eqn:Hlen.
    + apply Nat.eqb_eq, string_length_0 in Hlen as ->.
      rewrite (os_Write_open _ _ c) by done.
      eexists _, _, _, ((c +:+ p) +:+ ""). split; [done|]. split; [|split].
      * repeat split; simpl; [done..|]. exists (c +:+ p).
        by rewrite lookup_insert_eq.
      * by rewrite !string_app_nil_r.
      * by eexists.
    + set (n := GoBufio.Available _).
      rewrite (Flush_carries _ fs fd (c +:+ bf +:+ GoBufio.take n p)).
      2:{ repeat split; simpl; [done..|]. by exists c. }
      eexists _, _, _, ((c +:+ bf +:+ GoBufio.take n p) +:+ "").
      split; [done|]. split; [|split].
      * repeat split; simpl; [done..|]. eexists. by rewrite lookup_insert_eq.
      * rewrite string_app_nil_r, !string_app_assoc. by rewrite take_drop.
      * by eexists.
  - eexists _, _, _, _. split; [done|]. split; [done|]. split; [done|].
    exists c. by rewrite insert_id.
Qed.

(** After two turns the condition of the loop of [Write] fails: the model of
    [Write] leaves the loop where the source does. *)
Lemma Write_pass_settles b p fs :
  let '(b', p', _) := GoBufio.Write_pass (GoBufio.Write_pass (b, p, fs)) in
  GoBufio.Write_more b' p' = false.
Proof.
  assert (Hstop : ∀ b p fs, GoBufio.Write_more b p = false →
            GoBufio.Write_pass (b, p, fs) = (b, p, fs)).
  { intros b0 p0 fs0 H0. unfold GoBufio.Write_pass. by rewrite H0. }
  assert (Herr : ∀ bf w p, GoBufio.Write_more (GoBufio.mkWriter true bf w) p = false).
  { intros. unfold GoBufio.Write_more. simpl. apply andb_false_r. }
  assert (Hnil : ∀ b, GoBufio.Write_more b "" = false).
  { intros b0. unfold GoBufio.Write_more. simpl. done. }
  assert (Hdirect : ∀ b p fs, GoBufio.Buffered b = 0 →
            let '(b', p', _) := GoBufio.Write_pass (b, p, fs) in
            GoBufio.Write_more b' p' = false).
  { intros b0 p0 fs0 H0. unfold GoBufio.Write_pass.
    destruct (GoBufio.Write_more b0 p0) eqn:Hm; [|done].
    rewrite H0. simpl. destruct (GoOs.Write _ _ _); [apply Hnil | apply Herr]. }
  destruct (GoBufio.Write_more b p) eqn:Hm.
  2:{ rewrite !Hstop by done. done. }
  unfold GoBufio.Write_pass at 2. rewrite Hm.
  destruct (GoBufio.Buffered b =? 0)%nat eqn:Hn.
  - destruct (GoOs.Write _ _ _).
    + rewrite Hstop by apply Hnil. apply Hnil.
    + rewrite Hstop by apply Herr. apply Herr.
  - unfold GoBufio.Write_more in Hm. apply andb_true_iff in Hm as [_ He].
    apply negb_true_iff in He. unfold GoBufio.Flush.
    cbn [GoBufio.err GoBufio.buf GoBufio.wr]. rewrite He.
    unfold GoBufio.Buffered at 1. cbn [GoBufio.buf].
    rewrite string_length_app.
    apply Nat.eqb_neq in Hn. unfold GoBufio.Buffered in Hn.
    destruct (_ + _ =? 0)%nat eqn:Hz; [apply Nat.eqb_eq in Hz; lia|].
    destruct (GoOs.Write _ _ _).
    + apply Hdirect. done.
    + rewrite Hstop by apply Herr. apply Herr.
Qed.

Lemma Write_carries b p fs fd all :
  carries b fs fd all →
  ∃ b' fs', GoBufio.Write b p fs = (b', fs') ∧
            carries b' fs' fd (all +:+ p) ∧ ∃ c', fs' = <[fd := c']> fs.
Proof.
  intros Hb. unfold GoBufio.Write.
  destruct (Write_pass_carries b p fs fd all Hb)
    as (b1 & p1 & fs1 & all1 & -> & Hb1 & Hall1 & c1 & ->).
  destruct (Write_pass_carries b1 p1 _ fd all1 Hb1)
    as (b2 & p2 & fs2 & all2 & -> & Hb2 & Hall2 & c2 & ->).
  destruct Hb2 as (Herr & Hwr & c & Hc & <-). rewrite Herr.
  eexists _, _. split; [done|]. split.
  - repeat split; simpl; [done..|]. exists c. split; [done|].
    by rewrite <- string_app_assoc, Hall2, Hall1.
  - exists c2. by rewrite insert_insert_eq.
Qed.

(** Writing [p] and flushing, as [Printf] does: the buffer is left empty and
    the file holds what it held, what the buffer held, and [p]. *)
Lemma Write_Flush b p fs fd content :
  GoBufio.err b = false → GoBufio.wr b = Some fd → fs !! fd = Some content →
  ∃ b' fs', GoBufio.Write b p fs = (b', fs') ∧
    GoBufio.Flush b' fs' =
      (GoBufio.mkWriter false "" (Some fd),
       <[fd := content +:+ GoBufio.buf b +:+ p]> fs).
Proof.
  intros Herr Hwr Hfd.
  destruct (Write_carries b p fs fd (content +:+ GoBufio.buf b))
    as (b' & fs' & HW & Hb' & c' & ->).
  { repeat split; [done..|]. by exists content. }
  exists b', (<[fd := c']> fs). split; [done|].
  rewrite (Flush_carries _ _ _ _ Hb'). by rewrite insert_insert_eq, string_app_assoc.
Qed.

(** ** The store *)

Lemma bind_Returns {A B} (m : Go A) (k : A → Go B) w w' a :
  m w = (w', Returns a) → (m ≫= k) w = k a w'.
Proof. intros Hm. unfold mbind, Go_bind. by rewrite Hm. Qed.

Lemma load_Some l w L : l ≫= (loggers w !!.) = Some L → load l w = (w, Returns L).
Proof. intros HL. unfold load. by rewrite HL. Qed.

Lemma keeps_bind {A B} (I : World → Prop) (m : Go A) (k : A → Go B) :
  keeps I m → (∀ a, keeps I (k a)) → keeps I (m ≫= k).
Proof.
  intros Hm Hk w Hw. specialize (Hm w Hw). unfold mbind, Go_bind.
  destruct (m w) as [w' [a| |c]]; simpl in *; [by apply Hk | done..].
Qed.

Lemma keeps_ret {A} (I : World → Prop) (a : A) : keeps I (mret a).
Proof. by intros w Hw. Qed.

Lemma keeps_load (I : World → Prop) l : keeps I (load l).
Proof. intros w Hw. unfold load. by destruct (l ≫= _). Qed.

Lemma keeps_panic {A} (I : World → Prop) : keeps I (@panic A).
Proof. by intros w Hw. Qed.

Lemma keeps_os_Exit {A} (I : World → Prop) c : keeps I (@os_Exit A c).
Proof. by intros w Hw. Qed.

Lemma NewLogger_eq (T : LogLevel) (p : string) (d : GoOs.File) (w : World) :
  NewLogger T p d w =
    (mkWorld
       (loggers w ++
        [mkLogger T
           (Some (GoLog.New (Some (length (writers w))) ("[" +:+ p +:+ "] ")
                            (flags_of T)))
           (Some (length (writers w))) d p [] true])
       (writers w ++ [GoBufio.NewWriter d]) (files w),
     Returns (Some (length (loggers w)))).
Proof. reflexivity. Qed.

Lemma NewSubLogger_eq (a : nat) (L : Logger) (c : string) (w : World) :
  loggers w !! a = Some L →
  NewSubLogger (Some a) c w =
    (mkWorld
       (<[a := mkLogger (logLevel L) (logger L) (writer L) (destStream L)
                 (prefix L) (subloggers L ++ [Some (length (loggers w))])
                 (initialized L)]>
          (loggers w ++ [sub_of L c (length (writers w))]))
       (writers w ++ [GoBufio.NewWriter (destStream L)]) (files w),
     Returns (Some (length (loggers w)))).
Proof.
  intros HL. unfold NewSubLogger.
  rewrite (bind_Returns _ _ w w L) by (by apply load_Some).
  rewrite (bind_Returns _ _ _ _ _ (NewLogger_eq _ _ _ _)).
  erewrite bind_Returns.
  2:{ apply load_Some. simpl. by apply lookup_app_l_Some. }
  unfold mbind, Go_bind, store. cbn [loggers writers files].
  apply lookup_lt_Some in HL.
  destruct (decide (a < length _)) as [|Hge]; [done|].
  rewrite length_app in Hge. lia.
Qed.

Lemma NewSubLogger_nil (c : string) (w : World) :
  NewSubLogger None c w = (w, Panics).
Proof. reflexivity. Qed.

(** [NewSubLogger] on a logger of the store: the sublogger is a fresh
    logger, made as [sub_of] says. *)
Lemma NewSubLogger_sub (l : ptr) (L : Logger) (c : string) (w : World) :
  l ≫= (loggers w !!.) = Some L →
  ∃ w',
    NewSubLogger l c w = (w', Returns (Some (length (loggers w)))) ∧
    loggers w' !! length (loggers w) = Some (sub_of L c (length (writers w))) ∧
    writers w' !! length (writers w) = Some (GoBufio.NewWriter (destStream L)) ∧
    files w' = files w.
Proof.
  destruct l as [a|]; [simpl|done]. intros HL.
  eexists. split; [by apply NewSubLogger_eq|]. simpl.
  pose proof (lookup_lt_Some _ _ _ HL) as Hlt. split; [|split; [|done]].
  - rewrite list_lookup_insert_ne by lia.
    by rewrite lookup_app_r, Nat.sub_diag.
  - by rewrite lookup_app_r, Nat.sub_diag.
Qed.

(** ** Printf *)

Section PrintfFacts.
Context `{GoLib}.

Lemma ensureInitialized_initialized l L w :
  l ≫= (loggers w !!.) = Some L → initialized L = true →
  ensureInitialized l w = (w, Returns ()).
Proof.
  intros HL Hinit. unfold ensureInitialized.
  rewrite (bind_Returns _ _ w w L) by (by apply load_Some).
  by rewrite Hinit.
Qed.

(** Writing a line and flushing, on the writer of a ready logger. *)
Lemma Output_Flush_ready w l L W fd content s env :
  ready w l L W fd content →
  (log_Output (logger L) 3 s env ;; bufio_Flush (writer L)) w =
    (mkWorld (loggers w) (writers w)
       (<[fd := content +:+
                GoLog.line_of
                  (GoLog.New (writer L) ("[" +:+ prefix L +:+ "] ")
                             (flags_of (logLevel L)))
                  (time_Now env) (runtime_Caller env 3) s]> (files w)),
     Returns ()).
Proof.
  intros [HL Hinit Hlg HW HWeq Hfd Hopen].
  rewrite Hlg. unfold log_Output. cbn [GoLog.out].
  set (p := GoLog.line_of _ _ _ _).
  destruct (writer L) as [wi|] eqn:Hwi; [simpl in HW|done].
  destruct (Write_Flush W p (files w) fd content) as (b' & fs' & HWr & HFl).
  { by rewrite HWeq. } { by rewrite HWeq. } { done. }
  unfold mbind, Go_bind, bufio_Write, bufio_Flush, on_writer.
  rewrite HW, HWr. cbn [writers files loggers].
  rewrite list_lookup_insert_eq by (by eapply lookup_lt_Some).
  rewrite HFl. f_equal. f_equal.
  - rewrite list_insert_insert_eq. apply list_insert_id.
    by rewrite HW, HWeq, Hfd.
  - by rewrite HWeq.
Qed.

Lemma Printf_ready w l L W fd content format level v env :
  ready w l L W fd content →
  Printf l format level v env w =
    (if (level <=? logLevel L)%Z
     then mkWorld (loggers w) (writers w)
            (<[fd := content +:+ line L format v env]> (files w))
     else w,
     Returns ()).
Proof.
  intros Hr. pose proof Hr as [HL Hinit _ _ _ _ _]. unfold Printf.
  rewrite (bind_Returns _ _ w w ())
    by (by apply (ensureInitialized_initialized l L)).
  rewrite (bind_Returns _ _ w w L) by (by apply load_Some).
  destruct (level <=? logLevel L)%Z; [|done].
  by rewrite (Output_Flush_ready w l L W fd content).
Qed.
End PrintfFacts.

(** ** The line *)

Lemma itoa_loop_more (f : nat) (i wid : Z) (acc : string) :
  (0 ≤ i)%Z → (10 ≤ i ∨ 1 < wid)%Z →
  GoLog.itoa_loop (S f) i wid acc =
    GoLog.itoa_loop f (i / 10) (wid - 1) (String (GoLog.digit (i mod 10)) acc).
Proof.
  intros Hi Hc. simpl.
  replace ((10 <=? i)%Z || (1 <? wid)%Z) with true.
  2:{ symmetry. apply orb_true_iff. destruct Hc; [left|right]; lia. }
  rewrite Z.quot_div_nonneg by lia. do 2 f_equal. f_equal.
  rewrite (Z.mod_eq i 10) by lia. lia.
Qed.

Lemma itoa_loop_last (f : nat) (i wid : Z) (acc : string) :
  (i < 10)%Z → (wid ≤ 1)%Z →
  GoLog.itoa_loop (S f) i wid acc = String (GoLog.digit i) acc.
Proof.
  intros Hi Hw. simpl.
  replace ((10 <=? i)%Z || (1 <? wid)%Z) with false; [done|].
  symmetry. apply orb_false_iff. split; lia.
Qed.

Lemma itoa_two_digits (n : Z) : (0 ≤ n < 100)%Z → GoLog.itoa n 2 = two_digits n.
Proof.
  intros Hn. unfold GoLog.itoa, two_digits.
  rewrite itoa_loop_more by lia.
  rewrite itoa_loop_last; [done| |lia].
  apply Z.div_lt_upper_bound; lia.
Qed.

Lemma itoa_four_digits (n : Z) :
  (0 ≤ n < 10000)%Z → GoLog.itoa n 4 = four_digits n.
Proof.
  intros Hn. unfold GoLog.itoa, four_digits.
  assert (0 ≤ n / 10)%Z by (apply Z.div_pos; lia).
  assert (0 ≤ n / 10 / 10)%Z by (apply Z.div_pos; lia).
  rewrite !itoa_loop_more by lia.
  rewrite itoa_loop_last; [| |lia].
  - by rewrite !Z.div_div by lia.
  - rewrite !Z.div_div by lia. apply Z.div_lt_upper_bound; lia.
Qed.

Lemma ends_with_newline_nonempty (s : string) :
  GoLog.ends_with_newline s = true → s ≠ "".
Proof. by destruct s. Qed.

Lemma line_of_nonempty l t caller s : GoLog.line_of l t caller s ≠ "".
Proof.
  unfold GoLog.line_of.
  destruct (if GoLog.has _ _ then _ else _) as [file n].
  intros Heq. apply (f_equal String.length) in Heq.
  rewrite !string_length_app in Heq.
  destruct (GoLog.ends_with_newline s) eqn:Hs.
  - apply ends_with_newline_nonempty in Hs. destruct s; [done|]. simpl in Heq. lia.
  - simpl in Heq. lia.
Qed.

Section LineFacts.
Context `{GoLib}.

(** What [log.Output] writes for a logger made by [NewLogger]. *)
Lemma line_code_line (L : Logger) (format : string) (v : list any) (env : Env) :
  clock_ok (time_Now env) →
  line L format v env = code_line L env (fmt_Sprintf format v).
Proof.
  intros [Hy Hmo Hd Hh Hmi Hs]. unfold line, code_line, GoLog.line_of.
  unfold date_ymd, clock_hms, call_site, terminator, flags_of, LogDebug.
  unfold GoLog.formatHeader. cbn [GoLog.prefix GoLog.flag].
  rewrite <- itoa_four_digits by lia. rewrite <- !itoa_two_digits by lia.
  destruct (logLevel L =? GoSyslog.LOG_DEBUG)%Z;
    repeat match goal with
           | |- context [GoLog.has ?a ?b] =>
               let r := eval vm_compute in (GoLog.has a b) in
               change (GoLog.has a b) with r
           end; cbv iota.
  - destruct (default _ _) as [file n].
    by rewrite !string_app_assoc, !string_app_nil_l.
  - by rewrite !string_app_assoc, !string_app_nil_l.
Qed.
(** The line in its parts: the prefix in brackets, a stamp, the message and
    its newline; with the clock in range the stamp is the date year first,
    the time and, at DEBUG, the place of the call. *)
Lemma line_parts (L : Logger) (format : string) (v : list any) (env : Env) :
  ∃ stamp,
    line L format v env
      = "[" +:+ prefix L +:+ "] " +:+ stamp +:+ fmt_Sprintf format v
        +:+ terminator (fmt_Sprintf format v) ∧
    (clock_ok (time_Now env) →
     stamp = date_ymd (time_Now env) +:+ " " +:+ clock_hms (time_Now env)
             +:+ " "
             +:+ (if (logLevel L =? LogDebug)%Z then call_site env else "")).
Proof.
  unfold line, GoLog.line_of, GoLog.formatHeader, terminator, flags_of,
    LogDebug, call_site.
  cbn [GoLog.prefix GoLog.flag].
  destruct (logLevel L =? GoSyslog.LOG_DEBUG)%Z;
    repeat match goal with
           | |- context [GoLog.has ?a ?b] =>
               let r := eval vm_compute in (GoLog.has a b) in
               change (GoLog.has a b) with r
           end; cbv iota.
  - destruct (default _ _) as [file n].
    exists (GoLog.itoa (GoLog.Year (time_Now env)) 4 +:+ "/"
            +:+ GoLog.itoa (GoLog.Month (time_Now env)) 2 +:+ "/"
            +:+ GoLog.itoa (GoLog.Day (time_Now env)) 2 +:+ " "
            +:+ GoLog.itoa (GoLog.Hour (time_Now env)) 2 +:+ ":"
            +:+ GoLog.itoa (GoLog.Minute (time_Now env)) 2 +:+ ":"
            +:+ GoLog.itoa (GoLog.Second (time_Now env)) 2 +:+ " "
            +:+ GoLog.short file +:+ ":" +:+ GoLog.itoa n (-1) +:+ ": ").
    split.
    + by rewrite !string_app_assoc, !string_app_nil_l.
    + intros [Hy Hmo Hd Hh Hmi Hs]. unfold date_ymd, clock_hms.
      rewrite <- itoa_four_digits by lia. rewrite <- !itoa_two_digits by lia.
      by rewrite !string_app_assoc.
  - exists (GoLog.itoa (GoLog.Year (time_Now env)) 4 +:+ "/"
            +:+ GoLog.itoa (GoLog.Month (time_Now env)) 2 +:+ "/"
            +:+ GoLog.itoa (GoLog.Day (time_Now env)) 2 +:+ " "
            +:+ GoLog.itoa (GoLog.Hour (time_Now env)) 2 +:+ ":"
            +:+ GoLog.itoa (GoLog.Minute (time_Now env)) 2 +:+ ":"
            +:+ GoLog.itoa (GoLog.Second (time_Now env)) 2 +:+ " ").
    split.
    + by rewrite !string_app_assoc, !string_app_nil_l.
    + intros [Hy Hmo Hd Hh Hmi Hs]. unfold date_ymd, clock_hms.
      rewrite <- itoa_four_digits by lia. rewrite <- !itoa_two_digits by lia.
      by rewrite !string_app_assoc, string_app_nil_r.
Qed.
End LineFacts.

(** Whatever comes before, a message followed by its newline ends with a
    newline. *)
Lemma ends_with_newline_terminated (a s : string) :
  GoLog.ends_with_newline (a +:+ s +:+ terminator s) = true.
Proof.
  unfold terminator.
  assert (Hterm : GoLog.ends_with_newline
                    (s +:+ (if GoLog.ends_with_newline s then ""
                            else GoLog.newline)) = true).
  { destruct (GoLog.ends_with_newline s) eqn:Hs.
    - by rewrite string_app_nil_r.
    - clear Hs. induction s as [|c s IH]; [done|].
      rewrite string_app_cons. simpl.
      destruct (s +:+ GoLog.newline) eqn:Hs; [by destruct s|done]. }
  set (b := s +:+ _) in *.
  assert (Hb : b ≠ "") by (intros Heq; by rewrite Heq in Hterm).
  induction a as [|c a IH]; [done|].
  rewrite string_app_cons. simpl.
  destruct (a +:+ b) eqn:Hab; [|done].
  destruct a; [by rewrite string_app_nil_l in Hab | discriminate Hab].
Qed.


(** ** Loggers in service *)

Lemma ptr_lookup_app {A} (b : ptr) (x : A) (xs xs' : list A) :
  b ≫= (xs !!.) = Some x → b ≫= ((xs ++ xs') !!.) = Some x.
Proof. destruct b as [a|]; simpl; [|done]. apply lookup_app_l_Some. Qed.

Lemma holds_at_app l L w ls ws fs :
  holds_at l L w → holds_at l L (mkWorld (loggers w ++ ls) ws fs).
Proof. apply ptr_lookup_app. Qed.

(** [NewLogger] on an open file makes a logger ready for service. *)
Lemma ready_NewLogger (T : LogLevel) (p : string) (fd : nat) (content : string)
    (w : World) :
  files w !! fd = Some content →
  ready (NewLogger T p (Some fd) w).1 (Some (length (loggers w)))
    (mkLogger T
       (Some (GoLog.New (Some (length (writers w))) ("[" +:+ p +:+ "] ")
                        (flags_of T)))
       (Some (length (writers w))) (Some fd) p [] true)
    (GoBufio.NewWriter (Some fd)) fd content.
Proof.
  intros Hfd. rewrite NewLogger_eq. split; simpl; try done.
  - by rewrite lookup_app_r, Nat.sub_diag.
  - by rewrite lookup_app_r, Nat.sub_diag.
Qed.

(** Making another logger leaves a ready logger ready. *)
Lemma ready_after_NewLogger T p d w l L W fd content :
  ready w l L W fd content → ready (NewLogger T p d w).1 l L W fd content.
Proof.
  intros [HL Hinit Hlg HW HWeq Hfd Hopen]. rewrite NewLogger_eq.
  split; simpl; try done.
  - by apply ptr_lookup_app.
  - by apply ptr_lookup_app.
Qed.

(** The sublogger of a ready logger is ready, on the same file. *)
Lemma ready_sub w l L W fd content c :
  ready w l L W fd content →
  ready (NewSubLogger l c w).1 (Some (length (loggers w)))
    (sub_of L c (length (writers w))) (GoBufio.NewWriter (destStream L))
    fd content.
Proof.
  intros [HL Hinit Hlg HW HWeq Hfd Hopen].
  destruct (NewSubLogger_sub l L c w HL) as (w' & -> & Hsub & Hwr & Hfs).
  split; simpl; try done. by rewrite Hfs.
Qed.

(** Making a sublogger, of this logger or another, leaves a ready logger
    ready; the parent only gains the sublogger in its list. *)
Lemma ready_after_NewSubLogger w l0 L0 c l L W fd content :
  holds_at l0 L0 w → ready w l L W fd content →
  ∃ L', ready (NewSubLogger l0 c w).1 l L' W fd content ∧
        logLevel L' = logLevel L ∧ prefix L' = prefix L ∧
        destStream L' = destStream L ∧ (l ≠ l0 → L' = L).
Proof.
  intros HL0 [HL Hinit Hlg HW HWeq Hfd Hopen].
  unfold holds_at in HL0.
  destruct l0 as [a0|]; [simpl in HL0|done].
  destruct l as [a|]; [simpl in HL|done].
  rewrite (NewSubLogger_eq a0 L0 c w HL0).
  pose proof (lookup_lt_Some _ _ _ HL0) as Hlt0.
  destruct (decide (a = a0)) as [->|Hne].
  - assert (L0 = L) as -> by congruence.
    exists (mkLogger (logLevel L) (logger L) (writer L) (destStream L)
              (prefix L) (subloggers L ++ [Some (length (loggers w))])
              (initialized L)).
    split; [|by repeat split].
    split; simpl; try done.
    + rewrite list_lookup_insert_eq; [done|]. rewrite length_app. lia.
    + by apply ptr_lookup_app.
  - exists L. split; [|repeat split; congruence].
    split; simpl; try done.
    + rewrite list_lookup_insert_ne by done. by apply lookup_app_l_Some.
    + by apply ptr_lookup_app.
Qed.

Section ServiceFacts.
Context `{GoLib}.

(** A call of [Printf] on a ready logger leaves every ready logger ready;
    those on the same file see the line. *)
Lemma ready_after_Printf w l L W fd content format level v env
    l2 L2 W2 fd2 content2 :
  ready w l L W fd content → ready w l2 L2 W2 fd2 content2 →
  ready (Printf l format level v env w).1 l2 L2 W2 fd2
    (if decide (fd2 = fd ∧ (level ≤ logLevel L)%Z)
     then content2 +:+ line L format v env else content2).
Proof.
  intros Hr [HL Hinit Hlg HW HWeq Hfd Hopen].
  rewrite (Printf_ready w l L W fd content) by done. simpl.
  destruct (Z.leb_spec level (logLevel L)) as [Hle|Hgt].
  - split; simpl; try done. destruct (decide (fd2 = fd)) as [->|Hne].
    + rewrite decide_True by done. rewrite lookup_insert_eq.
      destruct Hr as [_ _ _ _ _ _ Hopen']. congruence.
    + rewrite decide_False by tauto. by rewrite lookup_insert_ne.
  - rewrite decide_False by lia. by split.
Qed.
End ServiceFacts.

(** ** What a call leaves alone *)

Lemma keeps_on_writer (I : World → Prop) b f :
  (∀ w ws fs, I w → I (mkWorld (loggers w) ws fs)) → keeps I (on_writer b f).
Proof.
  intros HI w Hw. unfold on_writer. destruct b as [a|]; [|done].
  destruct (writers w !! a); [|done]. destruct (f _ _). simpl. by apply HI.
Qed.

Lemma keeps_log_Output (I : World → Prop) lg depth s env :
  (∀ w ws fs, I w → I (mkWorld (loggers w) ws fs)) →
  keeps I (log_Output lg depth s env).
Proof.
  intros HI. destruct lg; [by apply keeps_on_writer | apply keeps_panic].
Qed.

Lemma keeps_NewLogger (I : World → Prop) T p d :
  (∀ w ls ws fs, I w → I (mkWorld (loggers w ++ ls) ws fs)) →
  keeps I (NewLogger T p d).
Proof. intros HI w Hw. rewrite NewLogger_eq. simpl. by apply HI. Qed.

Section FrameFacts.
Context `{GoLib}.

(** [Printf] changes no logger of the store, whatever the receiver. *)
Lemma Printf_keeps_logger l' L' l format level v env :
  keeps (holds_at l' L') (Printf l format level v env).
Proof.
  assert (Happ : ∀ w ls ws fs,
            holds_at l' L' w → holds_at l' L' (mkWorld (loggers w ++ ls) ws fs)).
  { intros. by apply holds_at_app. }
  assert (Hsame : ∀ w ws fs,
            holds_at l' L' w → holds_at l' L' (mkWorld (loggers w) ws fs)).
  { by intros. }
  unfold Printf. apply keeps_bind.
  - unfold ensureInitialized. apply keeps_bind; [apply keeps_load|].
    intros L. destruct (negb _); [|apply keeps_ret].
    unfold initializeDefaultLogger. apply keeps_bind; [|intros; apply keeps_ret].
    by apply keeps_NewLogger.
  - intros _. apply keeps_bind; [apply keeps_load|]. intros L.
    destruct (_ <=? _)%Z; [|apply keeps_ret].
    apply keeps_bind; [by apply keeps_log_Output|].
    intros _. by apply keeps_on_writer.
Qed.
End FrameFacts.

(** * Properties of the package *)

(** C7: the numeric values of the eight levels increase strictly in the order
    EMERG, ALERT, CRIT, ERR, WARNING, NOTICE, INFO, DEBUG: the lower the
    value, the higher the severity. *)
Theorem levels_strictly_increasing :
  (LogEmerg < LogAlert)%Z ∧ (LogAlert < LogCrit)%Z ∧ (LogCrit < LogErr)%Z ∧
  (LogErr < LogWarning)%Z ∧ (LogWarning < LogNotice)%Z ∧
  (LogNotice < LogInfo)%Z ∧ (LogInfo < LogDebug)%Z.
Proof. repeat split. Qed.

Section LevelClaims.
Context `{GoLib}.


(** C6: on a string that is not, up to case, the name of one of the eight
    levels, [ParseLogLevel] returns an error (with the level 0). *)
Theorem parse_unknown_fails (s : string) :
  (∀ L, L ∈ all_levels → ¬ same_ignoring_case s (LogLevel_String L)) →
  ParseLogLevel s =
    (0%Z, Some ("Invalid log level: " +:+ GoStrings.ToLower s)).
Proof.
  intros Hs.
  assert (Hne : ∀ L name, L ∈ all_levels → LogLevel_String L = name →
            (GoStrings.ToLower s =? name)%string = false).
  { intros L name HL <-. apply String.eqb_neq. intros Heq. apply (Hs L HL).
    unfold same_ignoring_case. by rewrite ToLower_level_name. }
  unfold ParseLogLevel.
  rewrite (Hne LogEmerg "emerg"), (Hne LogAlert "alert"),
    (Hne LogCrit "crit"), (Hne LogErr "err"), (Hne LogWarning "warning"),
    (Hne LogNotice "notice"), (Hne LogInfo "info"), (Hne LogDebug "debug");
    first [reflexivity | unfold all_levels; set_solver].
Qed.
End LevelClaims.

Section LevelWitnesses.
#[local] Existing Instance plainLib.


(** A witness of C6, at the string of the package's own test. *)
Lemma parse_unknown_fails_witness :
  ParseLogLevel "invalid" = (0%Z, Some "Invalid log level: invalid").
Proof.
  apply (parse_unknown_fails "invalid").
  intros L. unfold all_levels. rewrite !elem_of_cons, elem_of_nil.
  intros Hin. repeat (destruct Hin as [->|Hin]; [vm_compute; discriminate|]).
  destruct Hin.
Defined.
End LevelWitnesses.

(** ** Subloggers *)

Lemma bracket_chained (P : string) (c : string) (cs : list string) :
  "[" +:+ (P +:+ chained (c :: cs)) +:+ "] "
  = "[" +:+ P +:+ "]" +:+ bracketed (c :: cs) +:+ " ".
Proof.
  revert P c. induction cs as [|c' cs IH]; intros P c.
  - simpl. by rewrite !string_app_assoc.
  - specialize (IH (P +:+ "][" +:+ c) c').
    change (chained (c :: c' :: cs)) with ("][" +:+ c +:+ chained (c' :: cs)).
    change (bracketed (c :: c' :: cs))
      with ("[" +:+ c +:+ "]" +:+ bracketed (c' :: cs)).
    rewrite !string_app_assoc in IH |- *. rewrite IH.
    by rewrite !string_app_assoc.
Qed.

(** Nesting from a logger whose lines start with its bracketed prefix: so
    do the lines of the innermost sublogger. *)
Lemma NewSubLoggers_prefix (cs : list string) (w : World) (l : ptr) (L : Logger) :
  holds_at l L w → rendered L = Some ("[" +:+ prefix L +:+ "] ") →
  ∃ w' l' L',
    NewSubLoggers l cs w = (w', Returns l') ∧ holds_at l' L' w' ∧
    prefix L' = prefix L +:+ chained cs ∧
    rendered L' = Some ("[" +:+ prefix L' +:+ "] ").
Proof.
  revert w l L. induction cs as [|c cs IH]; intros w l L HL Hr.
  - exists w, l, L. simpl. by rewrite string_app_nil_r.
  - destruct (NewSubLogger_sub l L c w HL) as (w1 & Hsub & Hat & _ & _).
    destruct (IH w1 (Some (length (loggers w))) (sub_of L c (length (writers w))))
      as (w' & l' & L' & Hrun & HL' & Hp & Hr'); [done..|].
    exists w', l', L'. split; [|split; [done|split; [|done]]].
    + simpl. by rewrite (bind_Returns _ _ _ _ _ Hsub).
    + rewrite Hp. simpl. by rewrite !string_app_assoc.
Qed.

(** C2: [NewSubLogger(C)] on a logger of prefix [P] returns a logger whose
    stored prefix is [P ++ "][" ++ C] and whose lines start with that prefix
    in brackets; nested to any depth, the innermost sublogger's stored prefix
    is the first logger's followed by [][C] for each level, and its lines
    start with [[P][C1]...[Cn]] and a space. *)
Theorem sublogger_prefix (w : World) (l : ptr) (L : Logger) (C : string)
    (cs : list string) :
  holds_at l L w →
  (∃ w' l' L',
     NewSubLogger l C w = (w', Returns l') ∧ holds_at l' L' w' ∧
     prefix L' = prefix L +:+ "][" +:+ C ∧
     rendered L' = Some ("[" +:+ prefix L +:+ "][" +:+ C +:+ "] ")) ∧
  (∃ w' l' L',
     NewSubLoggers l (C :: cs) w = (w', Returns l') ∧ holds_at l' L' w' ∧
     prefix L' = prefix L +:+ chained (C :: cs) ∧
     rendered L' =
       Some ("[" +:+ prefix L +:+ "]" +:+ bracketed (C :: cs) +:+ " ")).
Proof.
  intros HL.
  destruct (NewSubLogger_sub l L C w HL) as (w1 & Hsub & Hat & _ & _).
  split.
  - exists w1, (Some (length (loggers w))), (sub_of L C (length (writers w))).
    split; [done|]. split; [done|]. split; [done|].
    unfold rendered. simpl. by rewrite !string_app_assoc.
  - destruct (NewSubLoggers_prefix cs w1 (Some (length (loggers w)))
                (sub_of L C (length (writers w))))
      as (w' & l' & L' & Hrun & HL' & Hp & Hr'); [done..|].
    exists w', l', L'. split; [|split; [done|]].
    + simpl. by rewrite (bind_Returns _ _ _ _ _ Hsub).
    + assert (Hp' : prefix L' = prefix L +:+ chained (C :: cs)).
      { rewrite Hp. simpl. by rewrite !string_app_assoc. }
      split; [done|]. rewrite Hr', Hp'. f_equal. apply bracket_chained.
Qed.

(** C5: the logger [NewSubLogger] returns has the threshold and the
    destination its parent has when it is made, and its writer writes to
    that destination. *)
Theorem sublogger_inherits (w : World) (l : ptr) (L : Logger) (C : string) :
  holds_at l L w →
  ∃ w' l' L' W',
    NewSubLogger l C w = (w', Returns l') ∧ holds_at l' L' w' ∧
    logLevel L' = logLevel L ∧ destStream L' = destStream L ∧
    writer L' ≫= (writers w' !!.) = Some W' ∧
    GoBufio.wr W' = destStream L.
Proof.
  intros HL.
  destruct (NewSubLogger_sub l L C w HL) as (w1 & Hsub & Hat & Hwr & _).
  by exists w1, (Some (length (loggers w))), (sub_of L C (length (writers w))),
    (GoBufio.NewWriter (destStream L)).
Qed.

(** ** Emission *)

Lemma then_Exit_world {A} (m : Go A) (c : Z) (w : World) :
  ((m ;; os_Exit (A := unit) c) w).1 = (m w).1.
Proof. unfold mbind, Go_bind. by destruct (m w) as [w' [a| |c']]. Qed.

Section EmissionClaims.
Context `{GoLib}.

(** Each helper leaves the store as [Printf] does at the severity the table
    of helpers gives it. *)
Lemma helper_is_Printf name S (h : helper) l format v env w :
  (name, (S, h)) ∈ helpers →
  (h l format v env w).1 = (Printf l format S v env w).1.
Proof.
  unfold helpers. rewrite !elem_of_cons, elem_of_nil. intros Hin.
  repeat (destruct Hin as [Heq|Hin];
          [injection Heq as -> -> ->; first [reflexivity | apply then_Exit_world]|]).
  destruct Hin.
Qed.

(** C1, as amended: on an initialized logger whose destination takes
    writes (a logger in service), with threshold [T], a message logged at
    severity [S], by [Printf] or by a level helper (at the severity the
    helper hands to [Printf]), is written to the destination if and only if
    [S <= T]: then the destination file gains the prefix in brackets, a
    stamp (with the clock in range: the date year first, the time and, at
    DEBUG, the place of the call), the message and its newline, and no
    other file changes; when [S] exceeds [T] the store is left as it was. *)
Theorem printf_threshold w l L W fd content format v env S (run : Go unit) :
  ready w l L W fd content →
  run = Printf l format S v env ∨
    (∃ name h, (name, (S, h)) ∈ helpers ∧ run = h l format v env) →
  ((S ≤ logLevel L)%Z →
     ∃ stamp,
       files (run w).1 =
         <[fd := content +:+ "[" +:+ prefix L +:+ "] " +:+ stamp
                 +:+ fmt_Sprintf format v
                 +:+ terminator (fmt_Sprintf format v)]> (files w) ∧
       (clock_ok (time_Now env) →
        stamp = date_ymd (time_Now env) +:+ " " +:+ clock_hms (time_Now env)
                +:+ " "
                +:+ (if (logLevel L =? LogDebug)%Z
                     then call_site env else ""))) ∧
  ((logLevel L < S)%Z → (run w).1 = w) ∧
  (files (run w).1 !! fd ≠ files w !! fd ↔ (S ≤ logLevel L)%Z).
Proof.
  intros Hr Hrun.
  assert (Hw : (run w).1 = (Printf l format S v env w).1).
  { destruct Hrun as [->|(name & h & Hin & ->)]; [done|].
    by apply (helper_is_Printf name). }
  rewrite Hw, (Printf_ready w l L W fd content) by done. simpl.
  pose proof Hr as [_ _ _ _ _ _ Hopen].
  destruct (Z.leb_spec S (logLevel L)) as [Hle|Hgt]; simpl.
  - split; [|split; [lia|]].
    + intros _. destruct (line_parts L format v env) as (stamp & Hline & Hst).
      exists stamp. split; [|done]. by rewrite Hline.
    + split; [done|]. intros _.
      rewrite lookup_insert_eq, Hopen. intros [= Heq].
      revert Heq. apply string_app_neq_l, line_of_nonempty.
  - split; [lia|]. split; [done|]. split; [done|lia].
Qed.

(** C8, as amended: a call of [Printf] on an initialized logger whose
    destination takes writes (a logger in service), with a severity that
    passes the threshold, flushes the writer right after the line is
    written: when the call returns the buffer is empty, the line, with the
    prefix, the message and its newline, is in the destination file, and
    the logger is in service again, so the same holds of the next
    message. *)
Theorem printf_flushes w l L W fd content format level v env :
  ready w l L W fd content → (level ≤ logLevel L)%Z →
  (Printf l format level v env w).2 = Returns () ∧
  GoBufio.buf <$> (writer L ≫= (writers (Printf l format level v env w).1 !!.))
    = Some "" ∧
  files (Printf l format level v env w).1 !! fd
    = Some (content +:+ line L format v env) ∧
  ready (Printf l format level v env w).1 l L W fd
    (content +:+ line L format v env) ∧
  ∃ stamp,
    files (Printf l format level v env w).1 !! fd
      = Some (content +:+ "[" +:+ prefix L +:+ "] " +:+ stamp
              +:+ fmt_Sprintf format v +:+ terminator (fmt_Sprintf format v)).
Proof.
  intros Hr Hle.
  pose proof (ready_after_Printf w l L W fd content format level v env
                l L W fd content Hr Hr) as Hr'.
  rewrite decide_True in Hr' by done.
  rewrite (Printf_ready w l L W fd content) in * by done.
  destruct (Z.leb_spec level (logLevel L)) as [_|Hgt]; [simpl in *|lia].
  split; [done|]. split; [|split; [|split; [done|]]].
  - destruct Hr as [_ _ _ HW -> _ _]. by rewrite HW.
  - by rewrite lookup_insert_eq.
  - destruct (line_parts L format v env) as (stamp & Hline & _).
    exists stamp. by rewrite lookup_insert_eq, Hline.
Qed.

(** C4, as amended: a line a logger in service emits is
    [[prefix] YYYY/MM/DD HH:MM:SS message]: the prefix in brackets, the date
    with the year first, the time, the message and a newline if the message
    does not end with one; a logger whose threshold is DEBUG puts the place
    of the call, [file:line: ], between the time and the message. *)
Theorem line_format w l L W fd content format level v env :
  ready w l L W fd content → clock_ok (time_Now env) →
  (level ≤ logLevel L)%Z →
  files (Printf l format level v env w).1 !! fd
    = Some (content +:+ code_line L env (fmt_Sprintf format v)).
Proof.
  intros Hr Hclock Hle. rewrite (Printf_ready w l L W fd content) by done.
  destruct (Z.leb_spec level (logLevel L)) as [_|Hgt]; [simpl|lia].
  by rewrite lookup_insert_eq, line_code_line.
Qed.
End EmissionClaims.

(** ** The logger that was never initialized *)

Section UninitializedClaims.
Context `{GoLib}.

Lemma ensureInitialized_uninitialized l L w :
  holds_at l L w → initialized L = false →
  ensureInitialized l w = ((NewDefaultLogger w).1, Returns ()).
Proof.
  intros HL Hinit. unfold ensureInitialized.
  rewrite (bind_Returns _ _ w w L) by (by apply load_Some).
  by rewrite Hinit.
Qed.

(** What follows [ensureInitialized] in [Printf] leaves the loggers of the
    store as they are. *)
Lemma Printf_rest_keeps_loggers (ls : list Logger) l format level v env :
  keeps (λ w, loggers w = ls)
    (L ← load l;
     if (level <=? logLevel L)%Z
     then log_Output (logger L) 3 (fmt_Sprintf format v) env;;
          bufio_Flush (writer L)
     else mret ()).
Proof.
  apply keeps_bind; [apply keeps_load|]. intros L.
  destruct (_ <=? _)%Z; [|apply keeps_ret].
  apply keeps_bind; [by apply keeps_log_Output|].
  intros _. by apply keeps_on_writer.
Qed.

(** C9: [Printf] on a logger whose [initialized] flag is false leaves that
    logger as it was, field by field, the flag still false: the default
    logger [ensureInitialized] makes is a new logger of the store, which the
    receiver never becomes. *)
Theorem printf_uninitialized_frame w l L format level v env :
  holds_at l L w → initialized L = false →
  holds_at l L (Printf l format level v env w).1 ∧
  (∀ L', holds_at l L' (Printf l format level v env w).1 →
         L' = L ∧ initialized L' = false) ∧
  loggers (Printf l format level v env w).1
    = loggers w ++ [default_Logger (length (writers w))].
Proof.
  intros HL Hinit.
  assert (Hat : holds_at l L (Printf l format level v env w).1)
    by (by apply Printf_keeps_logger).
  split; [done|]. split.
  - intros L' HL'. unfold holds_at in *. rewrite Hat in HL'.
    by injection HL' as <-.
  - unfold Printf.
    rewrite (bind_Returns _ _ _ _ _ (ensureInitialized_uninitialized l L w HL Hinit)).
    by apply Printf_rest_keeps_loggers.
Qed.

(** On the zero value of [Logger] nothing is ever written: a message at
    EMERG or below meets the nil [log.Logger], and any other is above the
    zero threshold. *)
Lemma Printf_zero_value w l format level v env :
  holds_at l zero_Logger w →
  files (Printf l format level v env w).1 = files w ∧
  (Printf l format level v env w).2
    = if (level <=? 0)%Z then Panics else Returns ().
Proof.
  intros HL. unfold Printf.
  rewrite (bind_Returns _ _ _ _ _
             (ensureInitialized_uninitialized l zero_Logger w HL eq_refl)).
  erewrite bind_Returns.
  2:{ apply load_Some. unfold NewDefaultLogger. rewrite NewLogger_eq. simpl.
      by apply ptr_lookup_app. }
  simpl. by destruct (level <=? 0)%Z.
Qed.
End UninitializedClaims.

(** ** The two copies *)

Section CopyClaims.
Context `{GoLib}.

(** C10, as amended: the two copies agree on what both define, Fatalf left
    aside: [ParseLogLevel] gives the same level and the same error on every
    string; [NewLogger], [NewSubLogger] and [Printf] are the same functions
    of the store; and [Debugf], [Infof], [Warningf] and [Errorf] exist in
    both copies and hand the same severity to [Printf]. *)
Theorem copies_agree :
  (∀ s, Prev.ParseLogLevel s = ParseLogLevel s) ∧
  (∀ T p d w, Prev.NewLogger T p d w = NewLogger T p d w) ∧
  (∀ l c w, Prev.NewSubLogger l c w = NewSubLogger l c w) ∧
  (∀ l format S v env w,
     Prev.Printf l format S v env w = Printf l format S v env w) ∧
  Forall agree_on ["Debugf"; "Infof"; "Warningf"; "Errorf"] ∧
  (∀ l format v env w,
     Prev.Debugf l format v env w = Debugf l format v env w ∧
     Prev.Infof l format v env w = Infof l format v env w ∧
     Prev.Warningf l format v env w = Warningf l format v env w ∧
     Prev.Errorf l format v env w = Errorf l format v env w).
Proof.
  repeat split; try reflexivity.
  repeat constructor; eexists; split; reflexivity.
Qed.

(** The helpers only the later copy has. *)
Lemma later_helpers :
  Forall (λ name, severity_of Prev.helpers name = None ∧
                  is_Some (severity_of helpers name))
    ["Emergf"; "Alertf"; "Noticef"].
Proof. repeat constructor; by eexists. Qed.

(** [Fatalf] hands LOG_CRIT to [Printf] in the earlier copy, as the comment
    above it says in both copies, and [LogErr] in the later one. *)
Lemma Fatalf_severities :
  severity_of Prev.helpers "Fatalf" = Some GoSyslog.LOG_CRIT ∧
  severity_of helpers "Fatalf" = Some LogErr.
Proof. by split. Qed.
End CopyClaims.

(** * Instances: the package's test, and inputs where a stated property fails *)

Section Instances.
#[local] Existing Instance plainLib.

(** The logger of the test is in service. *)
Lemma test_ready :
  ready test_world (Some 0) test_logger (GoBufio.NewWriter (Some 1)) 1 "".
Proof. split; reflexivity. Defined.

(** A witness of C1 as amended: [Infof] on the INFO logger of the test
    writes. *)
Lemma printf_threshold_witness :
  ready test_world (Some 0) test_logger (GoBufio.NewWriter (Some 1)) 1 "" ∧
  (files (Infof (Some 0) "logging things" [] test_env test_world).1 !! 1
     ≠ files test_world !! 1
   ↔ (LogInfo ≤ logLevel test_logger)%Z).
Proof.
  split; [split; reflexivity|].
  apply (printf_threshold test_world (Some 0) test_logger
           (GoBufio.NewWriter (Some 1)) 1 "" "logging things" [] test_env
           LogInfo (Infof (Some 0) "logging things" [] test_env)).
  - split; reflexivity.
  - right. exists "Infof", Infof. split; [|reflexivity].
    unfold helpers. repeat constructor.
Defined.

(** A witness of C2: the subloggers of the package's test. *)
Lemma sublogger_prefix_witness :
  holds_at (Some 0) test_logger test_world ∧
  ∃ w' l' L',
    NewSubLoggers (Some 0) ["test2"; "test3"] test_world = (w', Returns l') ∧
    holds_at l' L' w' ∧
    prefix L' = prefix test_logger +:+ chained ["test2"; "test3"] ∧
    rendered L' =
      Some ("[" +:+ prefix test_logger +:+ "]"
            +:+ bracketed ["test2"; "test3"] +:+ " ").
Proof.
  split; [reflexivity|].
  apply (sublogger_prefix test_world (Some 0) test_logger "test2" ["test3"]).
  reflexivity.
Defined.

(** A witness of C5. *)
Lemma sublogger_inherits_witness :
  holds_at (Some 0) test_logger test_world ∧
  ∃ w' l' L' W',
    NewSubLogger (Some 0) "test2" test_world = (w', Returns l') ∧
    holds_at l' L' w' ∧
    logLevel L' = logLevel test_logger ∧
    destStream L' = destStream test_logger ∧
    writer L' ≫= (writers w' !!.) = Some W' ∧
    GoBufio.wr W' = destStream test_logger.
Proof.
  split; [reflexivity|].
  apply (sublogger_inherits test_world (Some 0) test_logger "test2").
  reflexivity.
Defined.

(** A witness of C8 as amended. *)
Lemma printf_flushes_witness :
  (LogInfo ≤ logLevel test_logger)%Z ∧
  GoBufio.buf <$>
    (writer test_logger ≫=
       (writers (Printf (Some 0) "logging things" LogInfo [] test_env
                   test_world).1 !!.)) = Some "".
Proof.
  split; [by vm_compute|].
  apply (printf_flushes test_world (Some 0) test_logger
           (GoBufio.NewWriter (Some 1)) 1 "" "logging things" LogInfo []
           test_env).
  - split; reflexivity.
  - by vm_compute.
Defined.

(** A witness of C4 as amended. *)
Lemma line_format_witness :
  clock_ok (time_Now test_env) ∧
  files (Printf (Some 0) "logging things" LogInfo [] test_env test_world).1 !! 1
    = Some ("" +:+ code_line test_logger test_env
                     (fmt_Sprintf "logging things" [])).
Proof.
  split; [split; simpl; lia|].
  apply (line_format test_world (Some 0) test_logger
           (GoBufio.NewWriter (Some 1)) 1 "" "logging things" LogInfo []
           test_env).
  - split; reflexivity.
  - split; simpl; lia.
  - by vm_compute.
Defined.

(** C1 as stated fails: on the logger made on the nil file a message at
    INFO is within the threshold, [Printf] returns, and no file has
    changed; on the zero value of [Logger] a message at EMERG is within the
    threshold, [Printf] panics, and no file has changed. *)
Lemma printf_threshold_counterexample :
  holds_at (Some 0) nil_logger nil_world ∧
  (LogInfo ≤ logLevel nil_logger)%Z ∧
  Printf (Some 0) "logging things" LogInfo [] test_env nil_world
    = (mkWorld (loggers nil_world)
         [GoBufio.mkWriter true
            ("[test] 2014/03/07 09:05:02 logging things" +:+ GoLog.newline)
            None]
         (files nil_world),
       Returns ()) ∧
  holds_at (Some 0) zero_Logger zero_world ∧
  (LogEmerg ≤ logLevel zero_Logger)%Z ∧
  (Printf (Some 0) "logging things" LogEmerg [] test_env zero_world).2
    = Panics ∧
  files (Printf (Some 0) "logging things" LogEmerg [] test_env zero_world).1
    = files zero_world.
Proof. repeat split; by vm_compute. Qed.

(** C8 as stated fails: on the logger made on the nil file a message at
    INFO passes the threshold and [Printf] returns with the line still in
    the buffer and in no file; on the zero value a message at EMERG passes
    the threshold and [Printf] panics at the nil [log.Logger], before any
    flush. *)
Lemma printf_flushes_counterexample :
  (LogInfo ≤ logLevel nil_logger)%Z ∧
  (Printf (Some 0) "logging things" LogInfo [] test_env nil_world).2
    = Returns () ∧
  GoBufio.buf <$>
    (writer nil_logger ≫=
       (writers (Printf (Some 0) "logging things" LogInfo [] test_env
                   nil_world).1 !!.))
    = Some ("[test] 2014/03/07 09:05:02 logging things" +:+ GoLog.newline) ∧
  files (Printf (Some 0) "logging things" LogInfo [] test_env nil_world).1
    = files nil_world ∧
  (LogEmerg ≤ logLevel zero_Logger)%Z ∧
  (Printf (Some 0) "logging things" LogEmerg [] test_env zero_world).2
    = Panics.
Proof. repeat split; by vm_compute. Qed.

(** C4 as stated fails: the line of the test has the year first (and so it
    has on every logger); on a logger at DEBUG it also has the place of the
    call before the message. *)
Lemma line_format_counterexample :
  spec_line "test" (time_Now test_env) "logging things"
    = "[test] 03/07/2014 09:05:02 logging things" ∧
  files (Printf (Some 0) "logging things" LogInfo [] test_env test_world).1 !! 1
    = Some ("[test] 2014/03/07 09:05:02 logging things" +:+ GoLog.newline) ∧
  files (Printf (Some 0) "logging things" LogInfo [] test_env debug_world).1 !! 1
    = Some ("[test] 2014/03/07 09:05:02 picolog_test.go:20: logging things"
            +:+ GoLog.newline) ∧
  files (Printf (Some 0) "logging things" LogInfo [] test_env test_world).1 !! 1
    ≠ Some (spec_line "test" (time_Now test_env) "logging things"
            +:+ GoLog.newline) ∧
  files (Printf (Some 0) "logging things" LogInfo [] test_env debug_world).1 !! 1
    ≠ Some (spec_line "test" (time_Now test_env) "logging things"
            +:+ GoLog.newline).
Proof. repeat split; by vm_compute. Qed.

(** A witness of C9: [Printf] at any level on the zero value. *)
Lemma printf_uninitialized_frame_witness :
  holds_at (Some 0) zero_Logger zero_world ∧
  holds_at (Some 0) zero_Logger
    (Printf (Some 0) "lost" LogEmerg [] test_env zero_world).1.
Proof.
  split; [reflexivity|].
  apply (printf_uninitialized_frame zero_world (Some 0) zero_Logger "lost"
           LogEmerg [] test_env); reflexivity.
Defined.

(** C10 as stated fails at [Noticef], which the earlier copy does not have. *)
Lemma copies_agree_counterexample :
  "Noticef" ∈ claimed_helpers ∧ ¬ agree_on "Noticef".
Proof.
  split; [unfold claimed_helpers; repeat constructor|].
  intros (S & Hprev & _). vm_compute in Hprev. discriminate.
Qed.

(** [Fatalf] on a logger at CRIT: the earlier copy writes the line, the
    later one writes nothing; both leave the process. *)
Lemma Fatalf_differs :
  let w := (NewLogger LogCrit "test" (Some 1) (mkWorld [] [] {[1 := ""]})).1 in
  (Prev.Fatalf (Some 0) "boom" [] test_env w).2 = Exits 1 ∧
  (Fatalf (Some 0) "boom" [] test_env w).2 = Exits 1 ∧
  files (Prev.Fatalf (Some 0) "boom" [] test_env w).1 !! 1
    = Some ("[test] 2014/03/07 09:05:02 boom" +:+ GoLog.newline) ∧
  files (Fatalf (Some 0) "boom" [] test_env w).1 !! 1 = Some "".
Proof. repeat split; by vm_compute. Qed.
End Instances.

(** * Further properties *)

(** ** Calls *)

Section CallFacts.
Context `{GoLib}.

Lemma helper_cases name S (h : helper) :
  (name, (S, h)) ∈ helpers →
  h = (λ l format v env, Printf l format S v env) ∨
  h = (λ l format v env, Printf l format S v env;; os_Exit 1).
Proof.
  unfold helpers. rewrite !elem_of_cons, elem_of_nil. intros Hin.
  repeat (destruct Hin as [Heq|Hin];
          [injection Heq as -> -> ->; first [by left | by right]|]).
  destruct Hin.
Qed.

Lemma keeps_helper (I : World → Prop) name S (h : helper) l format v env :
  (name, (S, h)) ∈ helpers →
  (∀ l format S v env, keeps I (Printf l format S v env)) →
  keeps I (h l format v env).
Proof.
  intros Hin HP. destruct (helper_cases name S h Hin) as [->| ->]; [apply HP|].
  apply keeps_bind; [apply HP | intros; apply keeps_os_Exit].
Qed.

(** What every operation of the package keeps, every call keeps, and so
    does every run of calls. *)
Lemma keeps_run_call (I : World → Prop) :
  keeps I (alloc_Logger zero_Logger) →
  (∀ T p d, keeps I (NewLogger T p d)) →
  (∀ l c, keeps I (NewSubLogger l c)) →
  (∀ l format S v env, keeps I (Printf l format S v env)) →
  ∀ c, keeps I (run_call c).
Proof.
  intros Hnew HNL HSL HP [|T p d| |l c|l format level v env|name l format v env];
    unfold run_call.
  - apply keeps_bind; [done | intros; apply keeps_ret].
  - apply keeps_bind; [done | intros; apply keeps_ret].
  - apply keeps_bind; [apply HNL | intros; apply keeps_ret].
  - apply keeps_bind; [done | intros; apply keeps_ret].
  - apply HP.
  - destruct (_ !! name) as [[S h]|] eqn:Hh; [|apply keeps_ret].
    apply elem_of_list_to_map_2 in Hh. by apply (keeps_helper I name S).
Qed.

Lemma keeps_run_calls (I : World → Prop) :
  (∀ c, keeps I (run_call c)) → ∀ cs, keeps I (run_calls cs).
Proof.
  intros Hc cs. induction cs as [|c cs IH]; simpl; [apply keeps_ret|].
  apply keeps_bind; [apply Hc | done].
Qed.

End CallFacts.

(** ** A destination that takes no write *)

Lemma os_Write_refused d p (fs : gmap nat string) :
  d ≫= (fs !!.) = None → GoOs.Write d p fs = None.
Proof.
  unfold GoOs.Write. destruct d as [fd|]; [simpl|done]. by intros ->.
Qed.

Lemma Flush_refused b (fs : gmap nat string) :
  GoBufio.wr b ≫= (fs !!.) = None →
  ∃ b', GoBufio.Flush b fs = (b', fs) ∧ GoBufio.wr b' = GoBufio.wr b.
Proof.
  intros Hd. unfold GoBufio.Flush. destruct (GoBufio.err b); [by eexists|].
  destruct (_ =? _)%nat; [by eexists|].
  rewrite os_Write_refused by done. by eexists.
Qed.

Lemma Write_pass_refused b p (fs : gmap nat string) :
  GoBufio.wr b ≫= (fs !!.) = None →
  ∃ b' p', GoBufio.Write_pass (b, p, fs) = (b', p', fs) ∧
           GoBufio.wr b' = GoBufio.wr b.
Proof.
  intros Hd. unfold GoBufio.Write_pass.
  destruct (GoBufio.Write_more b p); [|by eexists _, _].
  destruct (_ =? _)%nat.
  - rewrite os_Write_refused by done. by eexists _, _.
  - match goal with |- context [GoBufio.Flush ?b0 fs] =>
      destruct (Flush_refused b0 fs Hd) as (b' & -> & Hwr) end.
    by eexists _, _.
Qed.

Lemma Write_refused b p (fs : gmap nat string) :
  GoBufio.wr b ≫= (fs !!.) = None →
  ∃ b', GoBufio.Write b p fs = (b', fs) ∧ GoBufio.wr b' = GoBufio.wr b.
Proof.
  intros Hd. unfold GoBufio.Write.
  destruct (Write_pass_refused b p fs Hd) as (b1 & p1 & -> & Hwr1).
  destruct (Write_pass_refused b1 p1 fs) as (b2 & p2 & -> & Hwr2);
    [by rewrite Hwr1|].
  destruct (GoBufio.err b2); eexists; (split; [done|]); simpl; congruence.
Qed.

Section ClosedFacts.
Context `{GoLib}.

(** [Printf] on an initialized, wired logger whose destination takes no
    write: only the logger's writer may change, and it keeps its file. *)
Lemma Printf_closed w l L W format level v env :
  holds_at l L w → initialized L = true → wired w L W →
  destStream L ≫= (files w !!.) = None →
  ∃ wi W',
    writer L = Some wi ∧ GoBufio.wr W' = GoBufio.wr W ∧
    Printf l format level v env w =
      (if (level <=? logLevel L)%Z
       then mkWorld (loggers w) (<[wi := W']> (writers w)) (files w)
       else w,
       Returns ()).
Proof.
  intros HL Hinit (Hlg & HW & Hwr) Hd.
  destruct (writer L) as [wi|] eqn:Hwi; [simpl in HW|done].
  unfold Printf.
  rewrite (bind_Returns _ _ w w ())
    by (by apply (ensureInitialized_initialized l L)).
  rewrite (bind_Returns _ _ w w L) by (by apply load_Some).
  destruct (level <=? logLevel L)%Z; [|by exists wi, W].
  rewrite Hlg. unfold log_Output. cbn [GoLog.out].
  set (p := GoLog.line_of _ _ _ _).
  destruct (Write_refused W p (files w)) as (b1 & HW1 & Hwr1);
    [by rewrite Hwr|].
  destruct (Flush_refused b1 (files w)) as (b2 & HF2 & Hwr2);
    [by rewrite Hwr1, Hwr|].
  exists wi, b2. split; [done|]. split; [congruence|].
  unfold mbind, Go_bind, bufio_Write, bufio_Flush, on_writer.
  rewrite Hwi, HW, HW1. cbn [writers files loggers].
  rewrite list_lookup_insert_eq by (by eapply lookup_lt_Some).
  rewrite HF2. by rewrite list_insert_insert_eq.
Qed.
End ClosedFacts.

(** ** Stores the package leaves sound *)

Lemma wired_writers w w' L W :
  wired w L W → writer L ≫= (writers w' !!.) = Some W → wired w' L W.
Proof. by intros (Hlg & _ & Hwr) HW. Qed.

Lemma sound_more w ls ws :
  sound w →
  (∀ L, L ∈ ls →
     if initialized L then
       ∃ W, wired (mkWorld (loggers w ++ ls) (writers w ++ ws) (files w)) L W ∧
            W = GoBufio.mkWriter false "" (destStream L)
     else logger L = None) →
  sound (mkWorld (loggers w ++ ls) (writers w ++ ws) (files w)).
Proof.
  intros Hs Hls a L. simpl. rewrite lookup_app_Some. intros [HL|[_ HL]].
  - specialize (Hs a L HL). destruct (initialized L); [|done].
    destruct Hs as (W & HW & Hrest). exists W. split; [|done].
    apply (wired_writers w); [done|]. simpl. apply ptr_lookup_app.
    by destruct HW as (_ & ? & _).
  - apply list_elem_of_lookup_2 in HL. specialize (Hls L HL).
    destruct (initialized L); [|done].
    destruct Hls as (W & HW & ->). by exists (GoBufio.mkWriter false "" (destStream L)).
Qed.

Lemma sound_alloc_zero : keeps sound (alloc_Logger zero_Logger).
Proof.
  intros w Hs. unfold alloc_Logger. simpl.
  rewrite <- (app_nil_r (writers w)). apply sound_more; [done|].
  intros L ->%list_elem_of_singleton. done.
Qed.

Lemma sound_NewLogger T p d : keeps sound (NewLogger T p d).
Proof.
  intros w Hs. rewrite NewLogger_eq. simpl. apply sound_more; [done|].
  intros L ->%list_elem_of_singleton. simpl. eexists. split; [|done].
  repeat split; simpl. by rewrite lookup_app_r, Nat.sub_diag.
Qed.

Lemma sound_NewSubLogger l c : keeps sound (NewSubLogger l c).
Proof.
  intros w Hs. destruct (l ≫= (loggers w !!.)) as [L|] eqn:HL.
  2:{ unfold NewSubLogger, mbind at 1, Go_bind, load. by rewrite HL. }
  destruct l as [a|]; [simpl in HL|done].
  rewrite (NewSubLogger_eq a L c w HL). simpl.
  assert (Hs1 : sound (mkWorld (loggers w ++ [sub_of L c (length (writers w))])
                         (writers w ++ [GoBufio.NewWriter (destStream L)])
                         (files w))).
  { apply sound_more; [done|]. intros L' ->%list_elem_of_singleton. simpl.
    eexists. split; [|done].
    repeat split; simpl. by rewrite lookup_app_r, Nat.sub_diag. }
  intros a2 L2. simpl. rewrite list_lookup_insert_Some.
  intros [(<- & <- & Hlt)|(Hne & HL2)].
  - specialize (Hs1 a L). simpl in Hs1. apply Hs1. by apply lookup_app_l_Some.
  - by apply (Hs1 a2 L2).
Qed.

Section SoundFacts.
Context `{GoLib}.

Lemma sound_ready w a L fd content :
  sound w → loggers w !! a = Some L → initialized L = true →
  destStream L = Some fd → files w !! fd = Some content →
  ready w (Some a) L (GoBufio.mkWriter false "" (Some fd)) fd content.
Proof.
  intros Hs HL Hinit Hfd Hopen. specialize (Hs a L HL). rewrite Hinit in Hs.
  destruct Hs as (W & (Hlg & HW & Hwr) & Hrest).
  rewrite Hfd in Hrest. simpl in Hrest. rewrite Hopen in Hrest.
  specialize (Hrest (mk_is_Some _ _ eq_refl)). subst W.
  split; try done. by rewrite Hfd.
Qed.

Lemma sound_Printf l format level v env :
  keeps sound (Printf l format level v env).
Proof.
  intros w Hs. destruct (l ≫= (loggers w !!.)) as [L|] eqn:HL.
  2:{ unfold Printf, ensureInitialized, mbind, Go_bind, load. by rewrite HL. }
  destruct l as [a|]; [simpl in HL|done].
  pose proof (Hs a L HL) as HsL. destruct (initialized L) eqn:Hinit.
  - destruct HsL as (W & HWd & Hrest). pose proof HWd as (Hlg & HW & Hwr).
    destruct (destStream L ≫= (files w !!.)) as [content|] eqn:Hd.
    + destruct (destStream L) as [fd|] eqn:Hfd; [simpl in Hd|done].
      rewrite (Printf_ready w (Some a) L _ fd content)
        by (by apply sound_ready).
      destruct (level <=? logLevel L)%Z; [|done]. simpl.
      intros a2 L2 HL2. specialize (Hs a2 L2 HL2). simpl in *.
      destruct (initialized L2); [|done].
      destruct Hs as (W2 & HW2 & Hrest2). exists W2. split; [done|].
      intros Hopen2. apply Hrest2.
      destruct (destStream L2) as [fd2|]; [simpl in *|done].
      destruct (decide (fd = fd2)) as [<-|Hne]; [by rewrite Hd|].
      by rewrite lookup_insert_ne in Hopen2.
    + destruct (Printf_closed w (Some a) L W format level v env)
        as (wi & W' & Hwi & HwrW' & ->); [done..|].
      destruct (level <=? logLevel L)%Z; [|done]. simpl.
      rewrite Hwi in HW. simpl in HW.
      intros a2 L2 HL2. specialize (Hs a2 L2 HL2). simpl in *.
      destruct (initialized L2); [|done].
      destruct Hs as (W2 & (Hlg2 & HW2 & Hwr2) & Hrest2).
      destruct (writer L2) as [wi2|] eqn:Hwi2; [simpl in HW2|done].
      destruct (decide (wi2 = wi)) as [->|Hne].
      * assert (W2 = W) as -> by congruence. exists W'. split.
        -- unfold wired. rewrite Hwi2. simpl.
           repeat split; [done| |congruence].
           apply list_lookup_insert_eq. by eapply lookup_lt_Some.
        -- intros Hopen2. rewrite <- Hwr2, Hwr, Hd in Hopen2.
           by destruct Hopen2.
      * exists W2. split; [|done]. unfold wired. rewrite Hwi2. simpl.
        repeat split; [done| |done]. by rewrite list_lookup_insert_ne.
  - unfold Printf.
    rewrite (bind_Returns _ _ _ _ _
               (ensureInitialized_uninitialized (Some a) L w HL Hinit)).
    pose proof (sound_NewLogger LogDebug "default" GoOs.Stderr w Hs) as Hs1.
    fold NewDefaultLogger in Hs1.
    erewrite bind_Returns.
    2:{ apply load_Some. unfold NewDefaultLogger. rewrite NewLogger_eq. simpl.
        by apply lookup_app_l_Some. }
    rewrite HsL. by destruct (level <=? logLevel L)%Z.
Qed.

Lemma sound_run_calls (cs : list call) : keeps sound (run_calls cs).
Proof.
  apply keeps_run_calls, keeps_run_call.
  - apply sound_alloc_zero.
  - apply sound_NewLogger.
  - apply sound_NewSubLogger.
  - apply sound_Printf.
Qed.

Lemma sound_empty (fs : gmap nat string) : sound (mkWorld [] [] fs).
Proof. by intros a L. Qed.
End SoundFacts.

(** ** Level names *)

Lemma lower_upper_byte (c : ascii) :
  GoStrings.lower_byte (GoStrings.upper_byte c) = GoStrings.lower_byte c.
Proof. by destruct c as [[] [] [] [] [] [] [] []]. Qed.

Lemma lower_lower_byte (c : ascii) :
  GoStrings.lower_byte (GoStrings.lower_byte c) = GoStrings.lower_byte c.
Proof. by destruct c as [[] [] [] [] [] [] [] []]. Qed.

Lemma upper_byte_ascii (c : ascii) :
  (N_of_ascii (GoStrings.upper_byte c) <? GoStrings.RuneSelf)%N
  = (N_of_ascii c <? GoStrings.RuneSelf)%N.
Proof. by destruct c as [[] [] [] [] [] [] [] []]. Qed.

Lemma lower_byte_ascii (c : ascii) :
  (N_of_ascii (GoStrings.lower_byte c) <? GoStrings.RuneSelf)%N
  = (N_of_ascii c <? GoStrings.RuneSelf)%N.
Proof. by destruct c as [[] [] [] [] [] [] [] []]. Qed.

Lemma isASCII_map_upper (s : string) :
  GoStrings.isASCII (GoStrings.map_bytes GoStrings.upper_byte s)
  = GoStrings.isASCII s.
Proof.
  induction s as [|c s IH]; [done|]. simpl. by rewrite upper_byte_ascii, IH.
Qed.

Lemma isASCII_map_lower (s : string) :
  GoStrings.isASCII (GoStrings.map_bytes GoStrings.lower_byte s)
  = GoStrings.isASCII s.
Proof.
  induction s as [|c s IH]; [done|]. simpl. by rewrite lower_byte_ascii, IH.
Qed.

Section LevelNames.
Context `{GoLib}.

Lemma ToLower_ToUpper_ascii (s : string) :
  GoStrings.isASCII s = true →
  GoStrings.ToLower (GoStrings.ToUpper s) = GoStrings.ToLower s.
Proof.
  intros Hs. unfold GoStrings.ToLower, GoStrings.ToUpper.
  rewrite Hs, isASCII_map_upper, Hs. clear Hs.
  induction s as [|c s IH]; [done|]. simpl. by rewrite lower_upper_byte, IH.
Qed.

Lemma ToLower_ToLower_ascii (s : string) :
  GoStrings.isASCII s = true →
  GoStrings.ToLower (GoStrings.ToLower s) = GoStrings.ToLower s.
Proof.
  intros Hs. unfold GoStrings.ToLower.
  rewrite Hs, isASCII_map_lower, Hs. clear Hs.
  induction s as [|c s IH]; [done|]. simpl. by rewrite lower_lower_byte, IH.
Qed.

(** [ParseLogLevel] looks at its argument through [strings.ToLower] only. *)
Lemma ParseLogLevel_ToLower (s t : string) :
  GoStrings.ToLower s = GoStrings.ToLower t → ParseLogLevel s = ParseLogLevel t.
Proof. intros Heq. unfold ParseLogLevel. by rewrite Heq. Qed.

Lemma String_cases (L : LogLevel) :
  L ∈ all_levels ∨ ((L ∉ all_levels) ∧ LogLevel_String L = "invalid log level").
Proof.
  destruct (decide (L ∈ all_levels)) as [|Hout]; [by left|right].
  split; [done|]. unfold LogLevel_String.
  repeat match goal with
         | |- context [(L =? ?k)%Z] =>
             destruct (Z.eqb_spec L k) as [->|_];
               [exfalso; apply Hout; unfold all_levels; set_solver|]
         end.
  done.
Qed.

(** X1: [ParseLogLevel] gives back [L] on the name [String] gives [L]
    exactly when [L] is one of the eight levels; for any other value
    [String] gives "invalid log level", which [ParseLogLevel] refuses. *)
Theorem parse_string_iff_level (L : LogLevel) :
  (ParseLogLevel (LogLevel_String L) = (L, None) ↔ L ∈ all_levels) ∧
  (L ∉ all_levels →
   LogLevel_String L = "invalid log level" ∧
   ParseLogLevel (LogLevel_String L)
     = (0%Z, Some "Invalid log level: invalid log level")).
Proof.
  split.
  - split.
    + intros Hp. destruct (String_cases L) as [|[_ Hs]]; [done|].
      rewrite Hs in Hp. discriminate Hp.
    + unfold all_levels. rewrite !elem_of_cons, elem_of_nil. intros Hin.
      repeat (destruct Hin as [->|Hin]; [reflexivity|]). done.
  - intros Hout. destruct (String_cases L) as [|[_ Hs]]; [done|].
    by rewrite Hs.
Qed.

(** X2: when [ParseLogLevel] returns no error, the level it returns is one
    of the eight and its name is the argument in lower case. *)
Theorem parse_ok_is_level (s : string) (L : LogLevel) :
  ParseLogLevel s = (L, None) →
  L ∈ all_levels ∧ LogLevel_String L = GoStrings.ToLower s.
Proof.
  unfold ParseLogLevel.
  repeat match goal with
         | |- context [(GoStrings.ToLower s =? ?n)%string] =>
             destruct (String.eqb_spec (GoStrings.ToLower s) n) as [->|_];
               [intros [= <-]; split; [unfold all_levels; set_solver|done]|]
         end.
  discriminate.
Qed.

(** X3: on a string of ASCII bytes the case of the letters is of no
    account: [ParseLogLevel] returns the same level and the same error on
    the string, on its upper case and on its lower case. *)
Theorem parse_ascii_case (s : string) :
  GoStrings.isASCII s = true →
  ParseLogLevel (GoStrings.ToUpper s) = ParseLogLevel s ∧
  ParseLogLevel (GoStrings.ToLower s) = ParseLogLevel s.
Proof.
  intros Hs. split; apply ParseLogLevel_ToLower.
  - by apply ToLower_ToUpper_ascii.
  - by apply ToLower_ToLower_ascii.
Qed.
End LevelNames.

(** ** Subloggers, receivers, destinations *)

(** X4: [NewSubLogger] adds the sublogger it returns, a logger at a fresh
    address, at the end of the parent's list of subloggers and changes
    nothing else: the parent's other fields, every other logger, every
    writer and every file are as before. *)
Theorem sublogger_bookkeeping (w : World) (l : ptr) (L : Logger) (C : string) :
  holds_at l L w →
  ∃ sub,
    (NewSubLogger l C w).2 = Returns sub ∧
    sub ≫= (loggers w !!.) = None ∧
    holds_at l (with_sublogger L sub) (NewSubLogger l C w).1 ∧
    (∀ l2 L2, l2 ≠ l → holds_at l2 L2 w →
              holds_at l2 L2 (NewSubLogger l C w).1) ∧
    (∀ b W, b ≫= (writers w !!.) = Some W →
            b ≫= (writers (NewSubLogger l C w).1 !!.) = Some W) ∧
    files (NewSubLogger l C w).1 = files w.
Proof.
  unfold holds_at. intros HL. destruct l as [a|]; [simpl in HL|done].
  rewrite (NewSubLogger_eq a L C w HL). simpl.
  pose proof (lookup_lt_Some _ _ _ HL) as Hlt.
  exists (Some (length (loggers w))). split; [done|]. split.
  { simpl. by apply lookup_ge_None. }
  split.
  { simpl. apply list_lookup_insert_eq. rewrite length_app. lia. }
  split; [|split; [|done]].
  - intros [a2|] L2 Hne HL2; [simpl in *|done].
    rewrite list_lookup_insert_ne by congruence. by apply lookup_app_l_Some.
  - intros b W. apply ptr_lookup_app.
Qed.

Section ReceiverFacts.
Context `{GoLib}.

(** X5: on a nil [*Logger], [NewSubLogger], [Printf] and every level
    helper panic, [Fatalf] too, before it reaches [os.Exit]; the store is
    left as it was. *)
Theorem nil_receiver_panics (w : World) (C format : string) (level : LogLevel)
    (v : list any) (env : Env) :
  NewSubLogger None C w = (w, Panics) ∧
  Printf None format level v env w = (w, Panics) ∧
  ∀ name S h, (name, (S, h)) ∈ helpers → h None format v env w = (w, Panics).
Proof.
  split; [done|]. split; [done|]. intros name S h Hin.
  by destruct (helper_cases name S h Hin) as [->| ->].
Qed.

(** X6: two loggers in service on one file, as a logger and its sublogger
    are: a message through the one and then a message through the other
    leave the file with the lines of those that pass their thresholds, in
    the order of the calls. *)
Theorem shared_file_call_order w fd content l1 L1 W1 l2 L2 W2
    format1 level1 v1 env1 format2 level2 v2 env2 :
  ready w l1 L1 W1 fd content → ready w l2 L2 W2 fd content →
  ((Printf l1 format1 level1 v1 env1;; Printf l2 format2 level2 v2 env2) w).2
    = Returns () ∧
  files ((Printf l1 format1 level1 v1 env1;;
          Printf l2 format2 level2 v2 env2) w).1 !! fd
    = Some (content
            +:+ (if (level1 <=? logLevel L1)%Z
                 then line L1 format1 v1 env1 else "")
            +:+ (if (level2 <=? logLevel L2)%Z
                 then line L2 format2 v2 env2 else "")).
Proof.
  intros Hr1 Hr2.
  pose proof (ready_after_Printf w l1 L1 W1 fd content format1 level1 v1 env1
                l2 L2 W2 fd content Hr1 Hr2) as Hr2'.
  pose proof (Printf_ready w l1 L1 W1 fd content format1 level1 v1 env1 Hr1)
    as HP1.
  rewrite (bind_Returns _ _ _ _ _ HP1). rewrite HP1 in Hr2'. simpl in Hr2'.
  rewrite (Printf_ready _ l2 L2 W2 fd _ format2 level2 v2 env2 Hr2'). simpl.
  split; [done|]. pose proof Hr1 as [_ _ _ _ _ _ Hopen].
  destruct (Z.leb_spec level1 (logLevel L1)) as [Hle1|Hgt1].
  - rewrite decide_True by done.
    destruct (level2 <=? logLevel L2)%Z; simpl.
    + by rewrite lookup_insert_eq, string_app_assoc.
    + by rewrite lookup_insert_eq, string_app_nil_r.
  - rewrite decide_False by lia.
    destruct (level2 <=? logLevel L2)%Z; simpl.
    + by rewrite lookup_insert_eq.
    + by rewrite Hopen, !string_app_nil_r.
Qed.

(** X7: an initialized logger whose destination takes no write (a nil or
    closed file): [Printf] returns as if all were well, and neither a file
    nor a logger of the store has changed. *)
Theorem printf_closed_destination w l L W format level v env :
  holds_at l L w → initialized L = true → wired w L W →
  destStream L ≫= (files w !!.) = None →
  (Printf l format level v env w).2 = Returns () ∧
  files (Printf l format level v env w).1 = files w ∧
  loggers (Printf l format level v env w).1 = loggers w.
Proof.
  intros HL Hinit HW Hd.
  destruct (Printf_closed w l L W format level v env HL Hinit HW Hd)
    as (wi & W' & _ & _ & ->).
  by destruct (level <=? logLevel L)%Z.
Qed.

(** X8: a logger that was never initialized and so has no [log.Logger]:
    [Printf] writes to no file; it panics when the level is within the
    logger's threshold and returns otherwise; each call leaves one more
    writer, that of the default logger it made, in the store. [Fatalf]
    panics or leaves the process likewise, without a line. *)
Theorem printf_never_initialized w l L format level v env :
  holds_at l L w → initialized L = false → logger L = None →
  files (Printf l format level v env w).1 = files w ∧
  (Printf l format level v env w).2
    = (if (level <=? logLevel L)%Z then Panics else Returns ()) ∧
  writers (Printf l format level v env w).1
    = writers w ++ [GoBufio.NewWriter GoOs.Stderr] ∧
  files (Fatalf l format v env w).1 = files w ∧
  (Fatalf l format v env w).2
    = (if (LogErr <=? logLevel L)%Z then Panics else Exits 1).
Proof.
  intros HL Hinit Hlg.
  assert (HP : ∀ S, Printf l format S v env w =
            ((NewDefaultLogger w).1,
             if (S <=? logLevel L)%Z then Panics else Returns ())).
  { intros S. unfold Printf.
    rewrite (bind_Returns _ _ _ _ _
               (ensureInitialized_uninitialized l L w HL Hinit)).
    erewrite bind_Returns.
    2:{ apply load_Some. unfold NewDefaultLogger. rewrite NewLogger_eq. simpl.
        by apply ptr_lookup_app. }
    rewrite Hlg. by destruct (S <=? logLevel L)%Z. }
  unfold Fatalf, mbind, Go_bind. rewrite !HP.
  repeat split; by destruct (_ <=? _)%Z.
Qed.

(** X9: [Fatalf] on a logger in service leaves the process with code 1,
    after a line if the logger's threshold lets pass the severity it logs
    at: ERR in the later copy, CRIT in the earlier one. *)
Theorem fatalf_exits w l L W fd content format v env :
  ready w l L W fd content →
  (Fatalf l format v env w).2 = Exits 1 ∧
  files (Fatalf l format v env w).1
    = (if (LogErr <=? logLevel L)%Z
       then <[fd := content +:+ line L format v env]> (files w)
       else files w) ∧
  (Prev.Fatalf l format v env w).2 = Exits 1 ∧
  files (Prev.Fatalf l format v env w).1
    = (if (GoSyslog.LOG_CRIT <=? logLevel L)%Z
       then <[fd := content +:+ line L format v env]> (files w)
       else files w).
Proof.
  intros Hr. unfold Fatalf, Prev.Fatalf, mbind, Go_bind.
  change (Prev.Printf l format GoSyslog.LOG_CRIT v env w)
    with (Printf l format GoSyslog.LOG_CRIT v env w).
  rewrite !(Printf_ready w l L W fd content) by done.
  repeat split; by destruct (_ <=? _)%Z.
Qed.

(** X10: the default logger writes to standard error whatever is logged
    through it at one of the eight levels (at DEBUG or below): if standard
    error is open, [NewDefaultLogger] and then [Printf] append the line
    to it. *)
Theorem default_logger_emits w content format level v env :
  files w !! 2 = Some content → (level ≤ LogDebug)%Z →
  ((l ← NewDefaultLogger; Printf l format level v env) w).2 = Returns () ∧
  files ((l ← NewDefaultLogger; Printf l format level v env) w).1
    = <[2 := content +:+
              line (default_Logger (length (writers w))) format v env]>
        (files w).
Proof.
  intros Hopen Hle.
  pose proof (ready_NewLogger LogDebug "default" 2 content w Hopen) as Hr.
  unfold NewDefaultLogger, GoOs.Stderr.
  rewrite (bind_Returns _ _ _ _ _ (NewLogger_eq _ _ _ _)).
  rewrite NewLogger_eq in Hr. simpl in Hr.
  rewrite (Printf_ready _ _ _ _ _ _ format level v env Hr).
  cbn [logLevel]. by apply Z.leb_le in Hle as ->.
Qed.

(** X14: the first message through a logger that [NewLogger] has just
    made on an open file, at a level within its threshold: what [Printf]
    adds to the file starts with the prefix given to [NewLogger], in
    brackets and followed by a space, ends with the message and a newline,
    whatever the message, the clock and the threshold. *)
Theorem line_shape w T p fd content format level v env :
  files w !! fd = Some content → (level ≤ T)%Z →
  ∃ stamp,
    files ((l ← NewLogger T p (Some fd); Printf l format level v env) w).1
      !! fd
      = Some (content +:+ "[" +:+ p +:+ "] " +:+ stamp
              +:+ fmt_Sprintf format v +:+ terminator (fmt_Sprintf format v)) ∧
    GoLog.ends_with_newline
      ("[" +:+ p +:+ "] " +:+ stamp +:+ fmt_Sprintf format v
       +:+ terminator (fmt_Sprintf format v)) = true.
Proof.
  intros Hopen Hle.
  pose proof (ready_NewLogger T p fd content w Hopen) as Hr.
  rewrite (bind_Returns _ _ _ _ _ (NewLogger_eq _ _ _ _)).
  rewrite NewLogger_eq in Hr. simpl in Hr.
  rewrite (Printf_ready _ _ _ _ _ _ format level v env Hr).
  cbn [logLevel]. apply Z.leb_le in Hle as ->. simpl.
  match type of Hr with ready _ _ ?L _ _ _ =>
    destruct (line_parts L format v env) as (stamp & Hline & _) end.
  exists stamp. rewrite lookup_insert_eq, Hline. split; [done|].
  pose proof (ends_with_newline_terminated ("[" +:+ p +:+ "] " +:+ stamp)
                (fmt_Sprintf format v)) as Hnl.
  by rewrite !string_app_assoc in Hnl.
Qed.
End ReceiverFacts.

(** ** Every run of calls *)

Lemma same_settings_refl L : same_settings L L.
Proof. repeat split. exists []. by rewrite app_nil_r. Qed.

(** The logger at [a] is [L], but for subloggers it may have gained. *)
Lemma settled_app a L w ls ws fs :
  (∃ L', loggers w !! a = Some L' ∧ same_settings L L') →
  ∃ L', loggers (mkWorld (loggers w ++ ls) ws fs) !! a = Some L' ∧
        same_settings L L'.
Proof.
  intros (L' & HL' & Hs). exists L'. split; [|done]. simpl.
  by apply lookup_app_l_Some.
Qed.

Lemma settled_NewSubLogger a L l c :
  keeps (λ w, ∃ L', loggers w !! a = Some L' ∧ same_settings L L')
    (NewSubLogger l c).
Proof.
  intros w (L' & HL' & Hs). destruct (l ≫= (loggers w !!.)) as [L0|] eqn:HL0.
  2:{ unfold NewSubLogger, mbind at 1, Go_bind, load. rewrite HL0. by exists L'. }
  destruct l as [a0|]; [simpl in HL0|done].
  rewrite (NewSubLogger_eq a0 L0 c w HL0). simpl.
  pose proof (lookup_lt_Some _ _ _ HL0) as Hlt0.
  destruct (decide (a = a0)) as [->|Hne].
  - assert (L0 = L') as -> by congruence. eexists. split.
    + apply list_lookup_insert_eq. rewrite length_app. lia.
    + destruct Hs as (? & ? & ? & ? & ? & ? & more & Hmore).
      repeat split; simpl; try done.
      exists (more ++ [Some (length (loggers w))]).
      by rewrite Hmore, app_assoc.
  - exists L'. split; [|done]. rewrite list_lookup_insert_ne by done.
    by apply lookup_app_l_Some.
Qed.

Section RunFacts.
Context `{GoLib}.

Lemma settled_Printf a L l format level v env :
  keeps (λ w, ∃ L', loggers w !! a = Some L' ∧ same_settings L L')
    (Printf l format level v env).
Proof.
  set (I := λ w, ∃ L', loggers w !! a = Some L' ∧ same_settings L L').
  assert (Happ : ∀ w ls ws fs, I w → I (mkWorld (loggers w ++ ls) ws fs))
    by (intros; by apply settled_app).
  assert (Hsame : ∀ w ws fs, I w → I (mkWorld (loggers w) ws fs)) by done.
  unfold Printf. apply keeps_bind.
  - unfold ensureInitialized. apply keeps_bind; [apply keeps_load|].
    intros L0. destruct (negb _); [|apply keeps_ret].
    unfold initializeDefaultLogger. apply keeps_bind; [|intros; apply keeps_ret].
    by apply keeps_NewLogger.
  - intros _. apply keeps_bind; [apply keeps_load|]. intros L0.
    destruct (_ <=? _)%Z; [|apply keeps_ret].
    apply keeps_bind; [by apply keeps_log_Output|].
    intros _. by apply keeps_on_writer.
Qed.

(** X11: in a store that calls of the package have built from nothing,
    every initialized logger has the [log.Logger] of its prefix and
    threshold, which writes through the logger's own writer to the logger's
    destination, the writer sound and empty if that file is open; and every
    logger that was never initialized has no [log.Logger]. *)
Theorem reachable_sound (fs : gmap nat string) (cs : list call) :
  sound (run_calls cs (mkWorld [] [] fs)).1.
Proof. apply sound_run_calls, sound_empty. Qed.

(** X12: in such a store every initialized logger whose destination is an
    open file is in service: what [Printf] is shown to do on a logger in
    service it does on every logger a program can hold. *)
Theorem reachable_in_service (fs : gmap nat string) (cs : list call)
    (a : nat) (L : Logger) (fd : nat) (content : string) :
  loggers (run_calls cs (mkWorld [] [] fs)).1 !! a = Some L →
  initialized L = true → destStream L = Some fd →
  files (run_calls cs (mkWorld [] [] fs)).1 !! fd = Some content →
  ready (run_calls cs (mkWorld [] [] fs)).1 (Some a) L
    (GoBufio.mkWriter false "" (Some fd)) fd content.
Proof.
  intros HL Hinit Hfd Hopen. apply sound_ready; try done.
  apply sound_run_calls, sound_empty.
Qed.

(** X15: no call changes the threshold, the prefix, the destination, the
    [log.Logger], the writer or the [initialized] flag of a logger: after
    any run of calls the logger at an address is the logger that was
    there, but for subloggers added at the end of its list. *)
Theorem logger_settings_fixed (cs : list call) (w : World) (a : nat)
    (L : Logger) :
  loggers w !! a = Some L →
  ∃ L', loggers (run_calls cs w).1 !! a = Some L' ∧ same_settings L L'.
Proof.
  intros HL.
  apply (keeps_run_calls
           (λ w, ∃ L', loggers w !! a = Some L' ∧ same_settings L L')).
  - apply keeps_run_call.
    + intros w' Hw'. by apply settled_app.
    + intros. apply keeps_NewLogger. intros. by apply settled_app.
    + intros. apply settled_NewSubLogger.
    + intros. apply settled_Printf.
  - exists L. split; [done | apply same_settings_refl].
Qed.
End RunFacts.

(** X16: subloggers nested to any depth under a logger in service are in
    service on the same file, with the same threshold: the innermost one
    is ready as soon as it is made. *)
Theorem nested_sublogger_in_service (cs : list string) (w : World) (l : ptr)
    (L : Logger) (W : GoBufio.Writer) (fd : nat) (content : string) :
  ready w l L W fd content →
  ∃ w' l' L' W',
    NewSubLoggers l cs w = (w', Returns l') ∧
    ready w' l' L' W' fd content ∧
    logLevel L' = logLevel L ∧ destStream L' = destStream L.
Proof.
  revert w l L W. induction cs as [|c cs IH]; intros w l L W Hr.
  - by exists w, l, L, W.
  - pose proof (ready_sub w l L W fd content c Hr) as Hsub.
    pose proof Hr as [HL _ _ _ _ _ _].
    destruct (NewSubLogger_sub l L c w HL) as (w1 & Hrun & _).
    rewrite Hrun in Hsub. simpl in Hsub.
    destruct (IH _ _ _ _ Hsub) as (w' & l' & L' & W' & Hrun' & Hr' & HT & Hd).
    exists w', l', L', W'. split; [|done].
    simpl. by rewrite (bind_Returns _ _ _ _ _ Hrun).
Qed.

(** * Instances of the further properties *)

Section MoreInstances.
#[local] Existing Instance plainLib.

(** A witness of X2. *)
Lemma parse_ok_is_level_witness :
  ParseLogLevel "WARNING" = (LogWarning, None) ∧
  LogWarning ∈ all_levels ∧
  LogLevel_String LogWarning = GoStrings.ToLower "WARNING".
Proof.
  split; [reflexivity|].
  apply (parse_ok_is_level "WARNING" LogWarning). reflexivity.
Defined.

(** A witness of X3. *)
Lemma parse_ascii_case_witness :
  GoStrings.isASCII "Info" = true ∧
  ParseLogLevel (GoStrings.ToUpper "Info") = ParseLogLevel "Info" ∧
  ParseLogLevel (GoStrings.ToLower "Info") = ParseLogLevel "Info".
Proof.
  split; [reflexivity|]. apply (parse_ascii_case "Info"). reflexivity.
Defined.

(** A witness of X4: the first sublogger of the package's test. *)
Lemma sublogger_bookkeeping_witness :
  holds_at (Some 0) test_logger test_world ∧
  ∃ sub,
    (NewSubLogger (Some 0) "test2" test_world).2 = Returns sub ∧
    sub ≫= (loggers test_world !!.) = None ∧
    holds_at (Some 0) (with_sublogger test_logger sub)
      (NewSubLogger (Some 0) "test2" test_world).1 ∧
    (∀ l2 L2, l2 ≠ Some 0 → holds_at l2 L2 test_world →
              holds_at l2 L2 (NewSubLogger (Some 0) "test2" test_world).1) ∧
    (∀ b W, b ≫= (writers test_world !!.) = Some W →
            b ≫= (writers (NewSubLogger (Some 0) "test2" test_world).1 !!.)
              = Some W) ∧
    files (NewSubLogger (Some 0) "test2" test_world).1 = files test_world.
Proof.
  split; [reflexivity|].
  apply (sublogger_bookkeeping test_world (Some 0) test_logger "test2").
  reflexivity.
Defined.

(** A witness of X6: the logger of the test, twice. *)
Lemma shared_file_call_order_witness :
  ready test_world (Some 0) test_logger (GoBufio.NewWriter (Some 1)) 1 "" ∧
  ((Printf (Some 0) "one" LogInfo [] test_env;;
    Printf (Some 0) "two" LogDebug [] test_env) test_world).2 = Returns ().
Proof.
  split; [split; reflexivity|].
  apply (shared_file_call_order test_world 1 ""
           (Some 0) test_logger (GoBufio.NewWriter (Some 1))
           (Some 0) test_logger (GoBufio.NewWriter (Some 1))
           "one" LogInfo [] test_env "two" LogDebug [] test_env);
    split; reflexivity.
Defined.

(** A witness of X7: a logger made on the nil file. *)
Lemma printf_closed_destination_witness :
  destStream (mkLogger LogInfo (Some (GoLog.New (Some 0) "[test] " 3))
                (Some 0) None "test" [] true)
    ≫= (files (NewLogger LogInfo "test" None (mkWorld [] [] ∅)).1 !!.) = None ∧
  files (Printf (Some 0) "lost" LogInfo [] test_env
           (NewLogger LogInfo "test" None (mkWorld [] [] ∅)).1).1
    = files (NewLogger LogInfo "test" None (mkWorld [] [] ∅)).1.
Proof.
  split; [reflexivity|].
  apply (printf_closed_destination
           (NewLogger LogInfo "test" None (mkWorld [] [] ∅)).1 (Some 0)
           (mkLogger LogInfo (Some (GoLog.New (Some 0) "[test] " 3))
              (Some 0) None "test" [] true)
           (GoBufio.NewWriter None) "lost" LogInfo [] test_env);
    first [reflexivity | repeat split].
Defined.

(** A witness of X8: the zero value. *)
Lemma printf_never_initialized_witness :
  holds_at (Some 0) zero_Logger zero_world ∧
  files (Printf (Some 0) "lost" LogInfo [] test_env zero_world).1
    = files zero_world.
Proof.
  split; [reflexivity|].
  apply (printf_never_initialized zero_world (Some 0) zero_Logger "lost"
           LogInfo [] test_env); reflexivity.
Defined.

(** A witness of X9. *)
Lemma fatalf_exits_witness :
  ready test_world (Some 0) test_logger (GoBufio.NewWriter (Some 1)) 1 "" ∧
  (Fatalf (Some 0) "boom" [] test_env test_world).2 = Exits 1.
Proof.
  split; [split; reflexivity|].
  apply (fatalf_exits test_world (Some 0) test_logger
           (GoBufio.NewWriter (Some 1)) 1 "" "boom" [] test_env).
  split; reflexivity.
Defined.

(** A witness of X10. *)
Lemma default_logger_emits_witness :
  files zero_world !! 2 = Some "" ∧ (LogInfo ≤ LogDebug)%Z ∧
  ((l ← NewDefaultLogger; Printf l "up" LogInfo [] test_env) zero_world).2
    = Returns ().
Proof.
  split; [reflexivity|]. split; [by vm_compute|].
  apply (default_logger_emits zero_world "" "up" LogInfo [] test_env);
    [reflexivity | by vm_compute].
Defined.

(** A witness of X12: the store of the test, as a run of one call. *)
Lemma reachable_in_service_witness :
  ready (run_calls [CallNewLogger LogInfo "test" (Some 1)]
           (mkWorld [] [] {[1 := ""; 2 := ""]})).1
    (Some 0) test_logger (GoBufio.mkWriter false "" (Some 1)) 1 "".
Proof.
  apply (reachable_in_service {[1 := ""; 2 := ""]}
           [CallNewLogger LogInfo "test" (Some 1)] 0 test_logger 1 "");
    reflexivity.
Defined.

(** A witness of X15: the test's logger after a sublogger and a message. *)
Lemma logger_settings_fixed_witness :
  loggers test_world !! 0 = Some test_logger ∧
  ∃ L', loggers (run_calls [CallNewSubLogger (Some 0) "test2";
                            CallHelper "Infof" (Some 1) "two" [] test_env]
                   test_world).1 !! 0 = Some L' ∧
        same_settings test_logger L'.
Proof.
  split; [reflexivity|].
  apply (logger_settings_fixed
           [CallNewSubLogger (Some 0) "test2";
            CallHelper "Infof" (Some 1) "two" [] test_env]
           test_world 0 test_logger).
  reflexivity.
Defined.

(** A witness of X16: the subloggers of the package's test. *)
Lemma nested_sublogger_in_service_witness :
  ready test_world (Some 0) test_logger (GoBufio.NewWriter (Some 1)) 1 "" ∧
  ∃ w' l' L' W',
    NewSubLoggers (Some 0) ["test2"; "test3"] test_world = (w', Returns l') ∧
    ready w' l' L' W' 1 "" ∧
    logLevel L' = logLevel test_logger ∧
    destStream L' = destStream test_logger.
Proof.
  split; [split; reflexivity|].
  apply (nested_sublogger_in_service ["test2"; "test3"] test_world (Some 0)
           test_logger (GoBufio.NewWriter (Some 1)) 1 "").
  split; reflexivity.
Defined.

(** A witness of X14: the logger of the test, made and used at once. *)
Lemma line_shape_witness :
  files (mkWorld [] [] {[1 := ""; 2 := ""]}) !! 1 = Some "" ∧
  (LogInfo ≤ LogInfo)%Z ∧
  ∃ stamp,
    files ((l ← NewLogger LogInfo "test" (Some 1);
            Printf l "logging things" LogInfo [] test_env)
             (mkWorld [] [] {[1 := ""; 2 := ""]})).1 !! 1
      = Some ("" +:+ "[" +:+ "test" +:+ "] " +:+ stamp
              +:+ fmt_Sprintf "logging things" []
              +:+ terminator (fmt_Sprintf "logging things" [])) ∧
    GoLog.ends_with_newline
      ("[" +:+ "test" +:+ "] " +:+ stamp +:+ fmt_Sprintf "logging things" []
       +:+ terminator (fmt_Sprintf "logging things" [])) = true.
Proof.
  split; [reflexivity|]. split; [by vm_compute|].
  apply (line_shape (mkWorld [] [] {[1 := ""; 2 := ""]}) LogInfo "test" 1 ""
           "logging things" LogInfo [] test_env); [reflexivity | by vm_compute].
Defined.
End MoreInstances.
